(** * velocity-transit-story: the slide animator and its driver

    A shallow embedding of [src/slideAnimator.js] (the choreography
    dispatcher and its five handlers) and of [src/main.js] (the slide
    driver: choreography loading, the hashchange listener, the reset
    button and the initial time-slider configuration), followed by the
    properties of the specification that were checked against it.

    JavaScript values are the values [JSON.parse] produces, plus
    [undefined]; numbers are integers (the program does no arithmetic on
    them, it only tests them for truthiness, uses them as array indices and
    stores them) and strings are byte strings.  SDK objects (layers, the
    time slider, the map view) are records holding the properties the
    source reads or writes; SDK method calls are recorded in a call log.
    A promise the source waits on is kept in a list of pending promises and
    settled by a later event, so that work of an earlier slide may finish
    after a later slide has been dispatched, as it can in the browser. *)

From Stdlib Require Import ZArith String Ascii List Bool Lia.
From Stdlib Require Import Decimal DecimalString DecimalPos DecimalZ.
From stdpp Require Import base list.
Import ListNotations.

Set Warnings "-register-all".
#[local] Set Default Proof Using "Type".

Open Scope string_scope.
Open Scope list_scope.
Open Scope Z_scope.
Open Scope nat_scope.

(** ** JavaScript values *)

(** Numbers: NaN and the integers, which is what the program computes
    with (array indices, lengths, the steps of the data).  An integer
    stands for the JavaScript number of that value, exactly so up to
    [2^53 - 1] in absolute value; beyond it a double rounds, and
    fractions and the infinities are not represented. *)
Inductive jsnum : Type :=
| NaN
| Num (z : Z).

Inductive value : Type :=
| VUndefined
| VNull
| VBool (b : bool)
| VNum (n : jsnum)
| VStr (s : string)
| VArr (items : list value)
| VObj (fields : list (string * value)).

(** Errors that are thrown or that reject a promise. *)
Inductive error : Type :=
| TypeError (message : string)
| ReferenceError (name : string)
| HostError (message : string).

(** ECMAScript completions: a normal completion or a throw completion. *)
Inductive completion (A : Type) : Type :=
| Normal (a : A)
| Throw (e : error).
Arguments Normal {A} a.
Arguments Throw {A} e.

(** ToBoolean. *)
Definition truthy (v : value) : bool :=
  match v with
  | VUndefined | VNull => false
  | VBool b => b
  | VNum NaN => false
  | VNum (Num z) => negb (z =? 0)%Z
  | VStr s => negb (s =? EmptyString)%string
  | VArr _ | VObj _ => true
  end.

(** Number::toString for integers, and its use as a property key. *)
Definition number_to_string (n : jsnum) : string :=
  match n with
  | NaN => "NaN"
  | Num z => NilZero.string_of_int (Z.to_int z)
  end.

(** A property key is an array index when it is the canonical decimal
    form of a natural number. *)
Definition array_index (key : string) : option nat :=
  match NilEmpty.uint_of_string key with
  | Some d =>
      let z := Z.of_uint d in
      if (number_to_string (Num z) =? key)%string then Some (Z.to_nat z) else None
  | None => None
  end.

Fixpoint assoc (key : string) (fields : list (string * value)) : option value :=
  match fields with
  | [] => None
  | (k, v) :: rest => if (k =? key)%string then Some v else assoc key rest
  end.

(** [v[key]] and [v.key] for the own data properties of JSON values: the
    fields of an object, the elements and [length] of an array, the
    characters and [length] of a string.  Reading a property of [null] or
    [undefined] throws. *)
Definition get (v : value) (key : string) : completion value :=
  match v with
  | VUndefined => Throw (TypeError "Cannot read properties of undefined")
  | VNull => Throw (TypeError "Cannot read properties of null")
  | VBool _ | VNum _ => Normal VUndefined
  | VStr s =>
      if (key =? "length")%string then Normal (VNum (Num (Z.of_nat (String.length s))))
      else match array_index key with
           | Some i => match String.get i s with
                       | Some c => Normal (VStr (String c EmptyString))
                       | None => Normal VUndefined
                       end
           | None => Normal VUndefined
           end
  | VArr items =>
      if (key =? "length")%string then Normal (VNum (Num (Z.of_nat (length items))))
      else match array_index key with
           | Some i => match items !! i with
                       | Some x => Normal x
                       | None => Normal VUndefined
                       end
           | None => Normal VUndefined
           end
  | VObj fields =>
      match assoc key fields with
      | Some x => Normal x
      | None => Normal VUndefined
      end
  end.

(** *** Numeric conversions *)

Definition is_digit (c : ascii) : bool :=
  let n := nat_of_ascii c in (48 <=? n) && (n <=? 57).

Definition digit_value (c : ascii) : Z := Z.of_nat (nat_of_ascii c) - 48.

(** The white space and line terminators of the ASCII range. *)
Definition is_whitespace (c : ascii) : bool :=
  let n := nat_of_ascii c in ((9 <=? n) && (n <=? 13)) || (n =? 32).

Fixpoint skip_whitespace (s : string) : string :=
  match s with
  | String c rest => if is_whitespace c then skip_whitespace rest else s
  | EmptyString => s
  end.

(** Reads the longest prefix of decimal digits: how many there are and the
    integer they denote. *)
Fixpoint read_digits (count : nat) (acc : Z) (s : string) : nat * Z * string :=
  match s with
  | String c rest =>
      if is_digit c then read_digits (S count) (10 * acc + digit_value c)%Z rest
      else (count, acc, s)
  | EmptyString => (count, acc, s)
  end.

Definition strip_sign (s : string) : Z * string :=
  match s with
  | String "-"%char rest => ((-1)%Z, rest)
  | String "+"%char rest => (1%Z, rest)
  | _ => (1%Z, s)
  end.

(** [parseInt(s, 10)]: leading white space is skipped, a sign is read, then
    the longest run of decimal digits; what follows the digits is ignored,
    and no digit at all gives NaN. *)
Definition parseInt (s : string) : jsnum :=
  let '(sign, body) := strip_sign (skip_whitespace s) in
  match read_digits 0 0%Z body with
  | (O, _, _) => NaN
  | (_, z, _) => Num (sign * z)
  end.

Fixpoint string_rev (acc s : string) : string :=
  match s with
  | String c rest => string_rev (String c acc) rest
  | EmptyString => acc
  end.

Definition trim (s : string) : string :=
  string_rev EmptyString (skip_whitespace (string_rev EmptyString (skip_whitespace s))).

(** StringToNumber on decimal integer literals (the only numeric literals
    of this model): the empty string is 0, anything else is NaN.  A
    string that holds a fraction, an exponent, a radix prefix or
    [Infinity] denotes a number the model does not represent.  The
    program converts only the [length] of a name list, which is such a
    string only in data that holds no list of names; the properties of
    the handler take a [length] that is a number or is absent. *)
Definition StringToNumber (s : string) : jsnum :=
  let t := trim s in
  if (t =? EmptyString)%string then Num 0
  else
    let '(sign, body) := strip_sign t in
    match read_digits 0 0%Z body with
    | (S _, z, EmptyString) => Num (sign * z)
    | _ => NaN
    end.

(** ToNumber.  An array is first converted to the string that joins its
    elements with commas, an object to ["[object Object]"]. *)
Fixpoint ToNumber (v : value) : jsnum :=
  match v with
  | VUndefined => NaN
  | VNull => Num 0
  | VBool b => Num (if b then 1 else 0)
  | VNum n => n
  | VStr s => StringToNumber s
  | VArr [] => Num 0
  | VArr [x] =>
      match x with
      | VUndefined | VNull => Num 0
      | VBool _ | VObj _ => NaN
      | VNum n => n
      | VStr s => StringToNumber s
      | VArr _ => ToNumber x
      end
  | VArr _ => NaN
  | VObj _ => NaN
  end.

(** [v > 0]. *)
Definition greater_than_zero (v : value) : bool :=
  match ToNumber v with
  | NaN => false
  | Num z => (0 <? z)%Z
  end.

(** [isNaN(n)] for a number. *)
Definition isNaN (n : jsnum) : bool :=
  match n with NaN => true | Num _ => false end.

(** [s.includes(t)] for strings: [t] occurs in [s]. *)
Fixpoint string_includes (s t : string) : bool :=
  String.prefix t s ||
  match s with
  | String _ rest => string_includes rest t
  | EmptyString => false
  end.

(** [Object.entries(v)]: the own enumerable string-keyed properties, in
    enumeration order.  The field list of a [VObj] is kept in that order. *)
Definition index_key (i : nat) : string := number_to_string (Num (Z.of_nat i)).

Definition Object_entries (v : value) : completion (list (string * value)) :=
  match v with
  | VUndefined | VNull => Throw (TypeError "Cannot convert undefined or null to object")
  | VBool _ | VNum _ => Normal []
  | VStr s => Normal (imap (fun i c => (index_key i, VStr (String c EmptyString))) (list_ascii_of_string s))
  | VArr items => Normal (imap (fun i x => (index_key i, x)) items)
  | VObj fields => Normal fields
  end.

(** ** SDK objects *)

(** [new Date(v)], kept symbolic: the date denoted by [v]. *)
Inductive Date : Type :=
| NewDate (v : value).

(** [{ start, end }]; [None] is [null]. *)
Record TimeExtent : Type := mkTimeExtent {
  te_start : option Date;
  te_end : option Date
}.

(** [{ value, unit }]. *)
Record Interval : Type := mkInterval {
  interval_value : value;
  interval_unit : value
}.

(** [{ interval }]. *)
Record Stops : Type := mkStops {
  stops_interval : Interval
}.

(** The properties of the [arcgis-time-slider] element the source touches.
    [state] is what the component reports when it is read ("disabled",
    "ready" or "playing"); within one event it is only read before any
    call to [play] or [stop], so the component's own reaction to those
    calls is not modelled. *)
Record TimeSlider : Type := mkTimeSlider {
  fullTimeExtent : option TimeExtent;
  timeExtent : option TimeExtent;
  stops : option Stops;
  state : string
}.

(** [{ startField, trackIdField, interval }]. *)
Record TimeInfo : Type := mkTimeInfo {
  startField : value;
  trackIdField : value;
  interval : Interval
}.

(** The properties of a layer the source touches; a layer's title is a
    string. *)
Record Layer : Type := mkLayer {
  title : string;
  visible : bool;
  timeInfo : option TimeInfo;
  trackInfo : value
}.

(** What [Viewpoint.fromJSON] and [Camera.fromJSON] build, kept symbolic:
    the SDK's [fromJSON] is taken to return a target for the JSON it is
    given.  It is SDK code; where it refuses its argument and throws, the
    handler stops before [goTo] and the dispatcher logs the error. *)
Inductive SdkClass : Type :=
| ViewpointClass
| CameraClass.

Inductive Target : Type :=
| fromJSON (class : SdkClass) (json : value).

(** Calls into the SDK, in the order they are made.  A layer is named by
    its reference (see [layers] below). *)
Inductive SdkCall : Type :=
| call_goTo (target : Target) (animate : bool) (duration : Z)
| call_play
| call_stop
| call_remove (layer : nat)
| call_clone (layer clone : nat)
| call_add (layer index : nat)
| call_when (layer : nat).

Inductive ConsoleArg : Type :=
| ArgNone
| ArgValue (v : value)
| ArgError (e : error)
| ArgTimeConfig (startFrame endFrame : Date) (timeUnit timeStep : value).

Inductive ConsoleEntry : Type :=
| console_log (message : string) (arg : ConsoleArg)
| console_error (message : string) (arg : ConsoleArg).

(** A promise the program waits on, with what its continuation captured:
    the [.catch] of a [goTo] (the message it logs), or the rest of
    [applyTrackRenderer] after [await trackLayer.when()]. *)
Inductive Pending : Type :=
| goTo_promise (message : string)
| when_promise (trackLayer : nat) (trackRenderer : value)
    (trackLayerField trackTimeSliderUnit trackTimeSliderStep : value).

Inductive Settlement : Type :=
| Fulfilled
| Rejected (reason : error).

(** [document.querySelector("arcgis-time-slider")]: [null] or the element. *)
Inductive sliderRef : Type :=
| sliderNull
| sliderElement.

Inductive viewRef : Type :=
| theView.

(** ** The state of the page *)

Record World : Type := mkWorld {
  (* the layer objects allocated so far; a layer reference is a position
     in this list *)
  layers : list Layer;
  (* mapView.map.layers: references, in collection order *)
  mapLayers : list nat;
  (* the time slider element, if the document has one *)
  slider : TimeSlider;
  sdkCalls : list SdkCall;
  console : list ConsoleEntry;
  pending : list Pending;
  (* history variable: the keys whose handler slideAnimation has called *)
  invoked : list string;
  (* main.js *)
  timeSliderGlobal : sliderRef;
  choreographyData : value;
  hashIndex : jsnum;
  isEmbedded : bool;
  resetButton_disabled : bool;
  hashchange_listener : bool;
  click_listener : bool;
  (* animationConfig.debugMode *)
  DEBUG : bool
}.

Definition set_layers (f : list Layer -> list Layer) (w : World) : World :=
  mkWorld (f (layers w)) (mapLayers w) (slider w) (sdkCalls w) (console w) (pending w)
    (invoked w) (timeSliderGlobal w) (choreographyData w) (hashIndex w) (isEmbedded w)
    (resetButton_disabled w) (hashchange_listener w) (click_listener w) (DEBUG w).

Definition set_mapLayers (f : list nat -> list nat) (w : World) : World :=
  mkWorld (layers w) (f (mapLayers w)) (slider w) (sdkCalls w) (console w) (pending w)
    (invoked w) (timeSliderGlobal w) (choreographyData w) (hashIndex w) (isEmbedded w)
    (resetButton_disabled w) (hashchange_listener w) (click_listener w) (DEBUG w).

Definition set_slider (f : TimeSlider -> TimeSlider) (w : World) : World :=
  mkWorld (layers w) (mapLayers w) (f (slider w)) (sdkCalls w) (console w) (pending w)
    (invoked w) (timeSliderGlobal w) (choreographyData w) (hashIndex w) (isEmbedded w)
    (resetButton_disabled w) (hashchange_listener w) (click_listener w) (DEBUG w).

Definition set_sdkCalls (f : list SdkCall -> list SdkCall) (w : World) : World :=
  mkWorld (layers w) (mapLayers w) (slider w) (f (sdkCalls w)) (console w) (pending w)
    (invoked w) (timeSliderGlobal w) (choreographyData w) (hashIndex w) (isEmbedded w)
    (resetButton_disabled w) (hashchange_listener w) (click_listener w) (DEBUG w).

Definition set_console (f : list ConsoleEntry -> list ConsoleEntry) (w : World) : World :=
  mkWorld (layers w) (mapLayers w) (slider w) (sdkCalls w) (f (console w)) (pending w)
    (invoked w) (timeSliderGlobal w) (choreographyData w) (hashIndex w) (isEmbedded w)
    (resetButton_disabled w) (hashchange_listener w) (click_listener w) (DEBUG w).

Definition set_pending (f : list Pending -> list Pending) (w : World) : World :=
  mkWorld (layers w) (mapLayers w) (slider w) (sdkCalls w) (console w) (f (pending w))
    (invoked w) (timeSliderGlobal w) (choreographyData w) (hashIndex w) (isEmbedded w)
    (resetButton_disabled w) (hashchange_listener w) (click_listener w) (DEBUG w).

Definition set_invoked (f : list string -> list string) (w : World) : World :=
  mkWorld (layers w) (mapLayers w) (slider w) (sdkCalls w) (console w) (pending w)
    (f (invoked w)) (timeSliderGlobal w) (choreographyData w) (hashIndex w) (isEmbedded w)
    (resetButton_disabled w) (hashchange_listener w) (click_listener w) (DEBUG w).

Definition set_choreographyData (v : value) (w : World) : World :=
  mkWorld (layers w) (mapLayers w) (slider w) (sdkCalls w) (console w) (pending w)
    (invoked w) (timeSliderGlobal w) v (hashIndex w) (isEmbedded w)
    (resetButton_disabled w) (hashchange_listener w) (click_listener w) (DEBUG w).

Definition set_hashIndex (n : jsnum) (w : World) : World :=
  mkWorld (layers w) (mapLayers w) (slider w) (sdkCalls w) (console w) (pending w)
    (invoked w) (timeSliderGlobal w) (choreographyData w) n (isEmbedded w)
    (resetButton_disabled w) (hashchange_listener w) (click_listener w) (DEBUG w).

Definition set_resetButton_disabled (b : bool) (w : World) : World :=
  mkWorld (layers w) (mapLayers w) (slider w) (sdkCalls w) (console w) (pending w)
    (invoked w) (timeSliderGlobal w) (choreographyData w) (hashIndex w) (isEmbedded w)
    b (hashchange_listener w) (click_listener w) (DEBUG w).

Definition set_hashchange_listener (b : bool) (w : World) : World :=
  mkWorld (layers w) (mapLayers w) (slider w) (sdkCalls w) (console w) (pending w)
    (invoked w) (timeSliderGlobal w) (choreographyData w) (hashIndex w) (isEmbedded w)
    (resetButton_disabled w) b (click_listener w) (DEBUG w).

Definition set_click_listener (b : bool) (w : World) : World :=
  mkWorld (layers w) (mapLayers w) (slider w) (sdkCalls w) (console w) (pending w)
    (invoked w) (timeSliderGlobal w) (choreographyData w) (hashIndex w) (isEmbedded w)
    (resetButton_disabled w) (hashchange_listener w) b (DEBUG w).

(** ** Computations: state passing with throw completions

    Effects made before a throw stay made, as in JavaScript. *)

Definition M (A : Type) : Type := World -> completion A * World.

Definition ret {A : Type} (a : A) : M A := fun w => (Normal a, w).

Definition bind {A B : Type} (m : M A) (k : A -> M B) : M B :=
  fun w =>
    match m w with
    | (Normal a, w') => k a w'
    | (Throw e, w') => (Throw e, w')
    end.

Definition throw {A : Type} (e : error) : M A := fun w => (Throw e, w).

Definition lift {A : Type} (c : completion A) : M A := fun w => (c, w).

Definition gets {A : Type} (f : World -> A) : M A := fun w => (Normal (f w), w).

Definition modify (f : World -> World) : M unit := fun w => (Normal tt, f w).

(** [try { m } catch (error) { handler(error) }]. *)
Definition try_catch {A : Type} (m : M A) (handler : error -> M A) : M A :=
  fun w =>
    match m w with
    | (Normal a, w') => (Normal a, w')
    | (Throw e, w') => handler e w'
    end.

Declare Scope js_scope.
Delimit Scope js_scope with js.
Notation "x <- m ;; k" := (bind m (fun x => k))
  (at level 100, m at next level, right associativity) : js_scope.
Notation "m ;; k" := (bind m (fun _ => k))
  (at level 100, right associativity) : js_scope.
Open Scope js_scope.

(** [list.forEach(f)]. *)
Fixpoint forEach {A : Type} (l : list A) (f : A -> M unit) : M unit :=
  match l with
  | [] => ret tt
  | x :: rest => f x ;; forEach rest f
  end.

(** *** Console *)

Definition console_log_ (message : string) (arg : ConsoleArg) : M unit :=
  modify (set_console (fun c => c ++ [console_log message arg])).

Definition console_error_ (message : string) (arg : ConsoleArg) : M unit :=
  modify (set_console (fun c => c ++ [console_error message arg])).

(** *** The map view, its layers and the time slider *)

Definition sdk_call (c : SdkCall) : M unit :=
  modify (set_sdkCalls (fun cs => cs ++ [c])).

(** [mapView.goTo(target, { animate, duration }).catch(error => console.error(message, error))]:
    the call is made and its promise is left pending. *)
Definition goTo_catch (target : Target) (animate : bool) (duration : Z) (message : string)
  : M unit :=
  sdk_call (call_goTo target animate duration) ;;
  modify (set_pending (fun p => p ++ [goTo_promise message])).

(** Dereferences a layer.  Every reference the program holds comes from
    the map's collection or from [clone], so the lookup fails only in a
    state that is not well formed. *)
Definition layer_get (ref : nat) : M Layer :=
  fun w =>
    match layers w !! ref with
    | Some l => (Normal l, w)
    | None => (Throw (HostError "dangling layer reference"), w)
    end.

Definition layer_update (ref : nat) (f : Layer -> Layer) : M unit :=
  l <- layer_get ref ;;
  modify (set_layers (fun ls => <[ref := f l]> ls)).

Definition set_visible (b : bool) (l : Layer) : Layer :=
  mkLayer (title l) b (timeInfo l) (trackInfo l).

Definition set_timeInfo (ti : option TimeInfo) (l : Layer) : Layer :=
  mkLayer (title l) (visible l) ti (trackInfo l).

Definition set_trackInfo (v : value) (l : Layer) : Layer :=
  mkLayer (title l) (visible l) (timeInfo l) v.

(** The time slider: every access goes through the reference, which may
    be [null]. *)
Definition slider_read {A : Type} (ref : sliderRef) (f : TimeSlider -> A) : M A :=
  match ref with
  | sliderNull => throw (TypeError "Cannot read properties of null")
  | sliderElement => gets (fun w => f (slider w))
  end.

Definition slider_write (ref : sliderRef) (f : TimeSlider -> TimeSlider) : M unit :=
  match ref with
  | sliderNull => throw (TypeError "Cannot set properties of null")
  | sliderElement => modify (set_slider f)
  end.

Definition slider_method (ref : sliderRef) (c : SdkCall) : M unit :=
  match ref with
  | sliderNull => throw (TypeError "Cannot read properties of null")
  | sliderElement => sdk_call c
  end.

Definition set_fullTimeExtent (e : TimeExtent) (s : TimeSlider) : TimeSlider :=
  mkTimeSlider (Some e) (timeExtent s) (stops s) (state s).

Definition set_timeExtent (e : TimeExtent) (s : TimeSlider) : TimeSlider :=
  mkTimeSlider (fullTimeExtent s) (Some e) (stops s) (state s).

Definition set_stops (st : Stops) (s : TimeSlider) : TimeSlider :=
  mkTimeSlider (fullTimeExtent s) (timeExtent s) (Some st) (state s).

(** ** slideAnimator.js *)

Record Context : Type := mkContext {
  slideData : value;
  mapView : viewRef;
  timeSlider : sliderRef;
  embedded : bool
}.

(** The SDK classes the module imports: [Viewpoint] only. *)
Definition slideAnimator_imports : list (string * SdkClass) :=
  [("Viewpoint", ViewpointClass)].

(** Resolving an identifier that names an SDK class: a name the module
    does not bind (and the browser's global object does not define) is a
    ReferenceError. *)
Definition identifier (name : string) : M SdkClass :=
  match List.find (fun b => (fst b =? name)%string) slideAnimator_imports with
  | Some b => ret (snd b)
  | None => throw (ReferenceError name)
  end.

Definition toggleViewpoint (ctx : Context) : M unit :=
  Viewpoint <- identifier "Viewpoint" ;;
  json <- lift (get (slideData ctx) "viewpoint") ;;
  let targetViewpoint := fromJSON Viewpoint json in
  goTo_catch targetViewpoint true 1000 "Error setting viewpoint:".

Definition toggleCamera (ctx : Context) : M unit :=
  cameraData <- lift (get (slideData ctx) "camera") ;;
  if negb (truthy cameraData) then ret tt
  else
    Camera <- identifier "Camera" ;;
    let targetCamera := fromJSON Camera cameraData in
    goTo_catch targetCamera true 1000 "Error setting camera:".

Definition is_null (ref : sliderRef) : bool :=
  match ref with sliderNull => true | sliderElement => false end.

(** [timeSlider && slideData.timeSlider && slideData.timeSlider.timeSliderStart
     && slideData.timeSlider.timeSliderEnd], evaluated left to right. *)
Definition has_timeSlider_config (ref : sliderRef) (slideData : value) : M bool :=
  if is_null ref then ret false
  else
    cfg <- lift (get slideData "timeSlider") ;;
    if negb (truthy cfg) then ret false
    else
      timeSliderStart <- lift (get cfg "timeSliderStart") ;;
      if negb (truthy timeSliderStart) then ret false
      else
        timeSliderEnd <- lift (get cfg "timeSliderEnd") ;;
        ret (truthy timeSliderEnd).

Definition toggleTimeSlider (ctx : Context) : M unit :=
  let timeSlider := timeSlider ctx in
  configured <- has_timeSlider_config timeSlider (slideData ctx) ;;
  if configured then
    cfg <- lift (get (slideData ctx) "timeSlider") ;;
    timeStart <- lift (get cfg "timeSliderStart") ;;
    timeEnd <- lift (get cfg "timeSliderEnd") ;;
    timeUnit <- lift (get cfg "timeSliderUnit") ;;
    timeStep <- lift (get cfg "timeSliderStep") ;;
    let startFrame := NewDate timeStart in
    let endFrame := NewDate timeEnd in
    slider_write timeSlider
      (set_fullTimeExtent (mkTimeExtent (Some startFrame) (Some endFrame))) ;;
    slider_write timeSlider (set_timeExtent (mkTimeExtent None (Some startFrame))) ;;
    slider_write timeSlider (set_stops (mkStops (mkInterval timeStep timeUnit))) ;;
    st <- slider_read timeSlider state ;;
    if (st =? "ready")%string && negb (embedded ctx) then
      slider_method timeSlider call_play
    else if (st =? "ready")%string && embedded ctx then
      slider_method timeSlider call_stop
    else if is_null timeSlider then
      console_log_ "No timeSlider component found." ArgNone
    else
      console_log_ "No timeSlider configuration found in choreography." ArgNone
  else ret tt.

(** [layerNames.includes(title)]: an array is searched for the title
    (SameValueZero, so only a string element can equal it), a string for
    an occurrence of it; nothing else has an [includes] method. *)
(** The title is one of the elements of an array of names. *)
Definition named (names : list value) (title : string) : bool :=
  existsb (fun v => match v with
                    | VStr s => (s =? title)%string
                    | _ => false
                    end) names.

Definition includes (layerNames : value) (title : string) : completion bool :=
  match layerNames with
  | VArr items => Normal (named items title)
  | VStr s => Normal (string_includes s title)
  | _ => Throw (TypeError "layerNames.includes is not a function")
  end.

Definition boolean_to_string (b : bool) : string :=
  if b then "true" else "false".

(** The callback [setLayerVisibility] runs on each layer of the map. *)
Definition setLayerVisibility_layer (layerNames : value) (visibility : bool)
    (mapLayer : nat) : M unit :=
  l <- layer_get mapLayer ;;
  found <- lift (includes layerNames (title l)) ;;
  if found then
    layer_update mapLayer (set_visible visibility) ;;
    console_log_ ("Layer '" ++ title l ++ "' visibility set to "
                  ++ boolean_to_string visibility) ArgNone
  else ret tt.

Definition setLayerVisibility (layerNames : value) (visibility : bool) : M unit :=
  if negb (truthy layerNames) then ret tt
  else
    len <- lift (get layerNames "length") ;;
    if negb (greater_than_zero len) then ret tt
    else
      collection <- gets mapLayers ;;
      forEach collection (setLayerVisibility_layer layerNames visibility).

Definition toggleLayerVisibility (ctx : Context) : M unit :=
  layerVisibility <- lift (get (slideData ctx) "layerVisibility") ;;
  layersOn <- lift (get layerVisibility "layersOn") ;;
  layerVisibility' <- lift (get (slideData ctx) "layerVisibility") ;;
  layersOff <- lift (get layerVisibility' "layersOff") ;;
  setLayerVisibility layersOn true ;;
  setLayerVisibility layersOff false.

(** [mapLayers.find(layer => layer.title === name)]: the first reference
    whose layer has that title. *)
Fixpoint find_layer (name : value) (refs : list nat) : M (option nat) :=
  match refs with
  | [] => ret None
  | ref :: rest =>
      l <- layer_get ref ;;
      match name with
      | VStr s => if (title l =? s)%string then ret (Some ref) else find_layer name rest
      | _ => find_layer name rest
      end
  end.

(** [collection.indexOf(ref)]: [None] stands for -1. *)
Fixpoint indexOf (ref : nat) (refs : list nat) : option nat :=
  match refs with
  | [] => None
  | r :: rest => if (r =? ref)%nat then Some 0%nat else option_map S (indexOf ref rest)
  end.

(** [map.remove(layer)]: the first occurrence leaves the collection. *)
Fixpoint remove_ref (ref : nat) (refs : list nat) : list nat :=
  match refs with
  | [] => []
  | r :: rest => if (r =? ref)%nat then rest else r :: remove_ref ref rest
  end.

(** [map.add(layer, index)]: inserted at [index], or at the end when the
    index is beyond it. *)
Definition add_ref (ref index : nat) (refs : list nat) : list nat :=
  take index refs ++ ref :: drop index refs.

Definition map_remove (ref : nat) : M unit :=
  sdk_call (call_remove ref) ;;
  modify (set_mapLayers (remove_ref ref)).

Definition map_add (ref index : nat) : M unit :=
  sdk_call (call_add ref index) ;;
  modify (set_mapLayers (add_ref ref index)).

(** [layer.clone()]: a new layer object with the same properties. *)
Definition layer_clone (ref : nat) : M nat :=
  l <- layer_get ref ;;
  clone <- gets (fun w => length (layers w)) ;;
  sdk_call (call_clone ref clone) ;;
  modify (set_layers (fun ls => ls ++ [l])) ;;
  ret clone.

(** [await trackLayer.when()]: the call is made and the rest of
    [applyTrackRenderer] waits for the promise. *)
Definition await_when (trackLayer : nat) (trackRenderer : value)
    (trackLayerField trackTimeSliderUnit trackTimeSliderStep : value) : M unit :=
  sdk_call (call_when trackLayer) ;;
  modify (set_pending (fun p =>
    p ++ [when_promise trackLayer trackRenderer
            trackLayerField trackTimeSliderUnit trackTimeSliderStep])).

Definition failed_to_set_track_renderer (error : error) : M unit :=
  console_error_ "Failed to set track Renderer:" (ArgError error).

(** [applyTrackRenderer] up to its [await].  [map.remove] and [map.add]
    are the collection operations above, which do not throw, so the
    [try]/[catch] around each of them in the source has no effect here.
    The layer having been found in the collection, [indexOf] does not
    give -1; that case is written as the end of the collection. *)
Definition applyTrackRenderer (trackRenderer timeSlider : value) : M unit :=
  try_catch
    (trackLayerField <- lift (get trackRenderer "trackFieldName") ;;
     trackTimeSliderUnit <- lift (get timeSlider "timeSliderUnit") ;;
     trackTimeSliderStep <- lift (get timeSlider "timeSliderStep") ;;
     trackLayerName <- lift (get trackRenderer "trackLayerName") ;;
     collection <- gets mapLayers ;;
     found <- find_layer trackLayerName collection ;;
     match found with
     | None => ret tt
     | Some trackLayer =>
         refs <- gets mapLayers ;;
         let layerIndex :=
           match indexOf trackLayer refs with
           | Some i => i
           | None => length refs
           end in
         map_remove trackLayer ;;
         clone <- layer_clone trackLayer ;;
         map_add clone layerIndex ;;
         console_log_ "Applying track renderer:" (ArgValue trackLayerName) ;;
         await_when clone trackRenderer
           trackLayerField trackTimeSliderUnit trackTimeSliderStep
     end)
    failed_to_set_track_renderer.

(** [applyTrackRenderer] from its [await] on, once the promise of
    [trackLayer.when()] has settled. *)
Definition applyTrackRenderer_resume (outcome : Settlement) (trackLayer : nat)
    (trackRenderer trackLayerField trackTimeSliderUnit trackTimeSliderStep : value)
  : M unit :=
  try_catch
    (match outcome with
     | Fulfilled => ret tt
     | Rejected reason => throw reason
     end ;;
     l <- layer_get trackLayer ;;
     trackStartField <-
       match timeInfo l with
       | Some ti => ret (startField ti)
       | None => throw (TypeError "Cannot read properties of null")
       end ;;
     layer_update trackLayer (set_visible true) ;;
     layer_update trackLayer
       (set_timeInfo (Some (mkTimeInfo trackStartField trackLayerField
                              (mkInterval trackTimeSliderStep trackTimeSliderUnit)))) ;;
     info <- lift (get trackRenderer "trackInfo") ;;
     layer_update trackLayer (set_trackInfo info))
    failed_to_set_track_renderer.

Definition toggleTrackRenderer (ctx : Context) : M unit :=
  trackTimeConfig <- lift (get (slideData ctx) "timeSlider") ;;
  trackRenderer <- lift (get (slideData ctx) "trackRenderer") ;;
  applyTrackRenderer trackRenderer trackTimeConfig.

(** What [handler(context)] does when [handler] is a member that
    [choreographyHandlers] inherits from [Object.prototype] rather than
    one of its own: called with no receiver, [constructor] and [toString]
    return; the others throw a TypeError. *)
Definition Object_prototype_member (key : string) : option (Context -> M unit) :=
  if existsb (String.eqb key) ["constructor"; "toString"] then
    Some (fun _ => ret tt)
  else if existsb (String.eqb key)
            ["toLocaleString"; "valueOf"; "hasOwnProperty"; "isPrototypeOf";
             "propertyIsEnumerable"; "__proto__"; "__defineGetter__";
             "__defineSetter__"; "__lookupGetter__"; "__lookupSetter__"] then
    Some (fun _ => throw (TypeError "handler cannot be called"))
  else None.

Definition choreographyHandlers (key : string) : option (Context -> M unit) :=
  if (key =? "viewpoint")%string then Some toggleViewpoint
  else if (key =? "timeSlider")%string then Some toggleTimeSlider
  else if (key =? "layerVisibility")%string then Some toggleLayerVisibility
  else if (key =? "trackRenderer")%string then Some toggleTrackRenderer
  else if (key =? "camera")%string then Some toggleCamera
  else Object_prototype_member key.

Definition NON_EMBED_EXCLUDE_KEYS : list string := ["viewpoint"].

Definition has (keys : list string) (key : string) : bool :=
  existsb (String.eqb key) keys.

(** The callback [slideAnimation] runs on each entry [[key, value]]. *)
Definition slideAnimation_entry (context : Context) (entry : string * value) : M unit :=
  let key := fst entry in
  match choreographyHandlers key with
  | None => ret tt
  | Some handler =>
      if embedded context && has NON_EMBED_EXCLUDE_KEYS key then ret tt
      else
        try_catch
          (modify (set_invoked (fun ks => ks ++ [key])) ;;
           handler context)
          (fun error =>
             console_error_ ("Error processing '" ++ key ++ "':") (ArgError error))
  end.

Definition slideAnimation (slideData : value) (mapView : viewRef)
    (timeSlider : sliderRef) (embedded : bool) : M unit :=
  let context := mkContext slideData mapView timeSlider embedded in
  entries <- lift (Object_entries slideData) ;;
  forEach entries (slideAnimation_entry context).

(** ** main.js

    The module's variables [choreographyData], [hashIndex], [isEmbedded]
    and [timeSlider] are fields of [World]; [mapView] is set before any of
    the functions below runs.  The document is assumed to hold the map
    element and the reset button; the time slider element may be
    missing. *)

Definition log (message : string) (arg : ConsoleArg) : M unit :=
  debug <- gets DEBUG ;;
  if debug then console_log_ message arg else ret tt.

(** What the network answers to [fetch(path)] followed by
    [response.json()]. *)
Inductive FetchOutcome : Type :=
| fetch_rejects (reason : error)
| json_rejects (reason : error)
| json_resolves (data : value).

Definition loadChoreography (path : string) (answer : FetchOutcome) : M unit :=
  try_catch
    (match answer with
     | fetch_rejects reason => throw reason
     | json_rejects reason => throw reason
     | json_resolves data =>
         modify (set_choreographyData data) ;;
         loaded <- gets choreographyData ;;
         log "Loaded data" (ArgValue loaded)
     end)
    (fun error => console_error_ "Failed to load choreography:" (ArgError error)).

(** [s.substring(1)]. *)
Definition substring_from_1 (s : string) : string :=
  match s with
  | String _ rest => rest
  | EmptyString => EmptyString
  end.

(** [choreographyData[hashIndex]]. *)
Definition current_config : M value :=
  data <- gets choreographyData ;;
  index <- gets hashIndex ;;
  lift (get data (number_to_string index)).

(** The listener [setupHashListener] installs; [location_hash] is
    [window.location.hash] when the event fires. *)
Definition on_hashchange (location_hash : string) : M unit :=
  log ("Hash changed to: " ++ location_hash) ArgNone ;;
  modify (set_hashIndex (parseInt (substring_from_1 location_hash))) ;;
  index <- gets hashIndex ;;
  invalid <- (if isNaN index then ret true
              else (slide <- current_config ;; ret (negb (truthy slide)))) ;;
  if (invalid : bool) then log "No valid hash index found." ArgNone
  else
    currentSlide <- current_config ;;
    timeSlider <- gets timeSliderGlobal ;;
    isEmbedded <- gets isEmbedded ;;
    slideAnimation currentSlide theView timeSlider isEmbedded.

Definition setupHashListener : M unit :=
  modify (set_hashchange_listener true).

(** The listener [setupResetButton] installs. *)
Definition on_click : M unit :=
  config <- current_config ;;
  if truthy config then
    timeSlider <- gets timeSliderGlobal ;;
    timeSliderStart <- lift (get config "timeSliderStart") ;;
    slider_write timeSlider
      (set_timeExtent (mkTimeExtent None (Some (NewDate timeSliderStart)))) ;;
    st <- slider_read timeSlider state ;;
    (if (st =? "ready")%string then slider_method timeSlider call_play else ret tt) ;;
    log "Animation reset and replayed." ArgNone
  else
    console_error_ "No configuration found for the current hash." ArgNone.

Definition setupResetButton : M unit :=
  modify (set_click_listener true).

Definition configureTimeSlider : M unit :=
  data <- gets choreographyData ;;
  slideData <- lift (get data "0") ;;
  timeSlider <- gets timeSliderGlobal ;;
  configured <- has_timeSlider_config timeSlider slideData ;;
  if configured then
    cfg <- lift (get slideData "timeSlider") ;;
    timeStart <- lift (get cfg "timeSliderStart") ;;
    timeEnd <- lift (get cfg "timeSliderEnd") ;;
    timeUnit <- lift (get cfg "timeSliderUnit") ;;
    timeStep <- lift (get cfg "timeSliderStep") ;;
    let startFrame := NewDate timeStart in
    let endFrame := NewDate timeEnd in
    log "Configuring time slider:" (ArgTimeConfig startFrame endFrame timeUnit timeStep) ;;
    slider_write timeSlider
      (set_fullTimeExtent (mkTimeExtent (Some startFrame) (Some endFrame))) ;;
    slider_write timeSlider (set_timeExtent (mkTimeExtent None (Some startFrame))) ;;
    slider_write timeSlider (set_stops (mkStops (mkInterval timeStep timeUnit))) ;;
    st <- slider_read timeSlider state ;;
    isEmbedded <- gets isEmbedded ;;
    if (st =? "ready")%string && negb isEmbedded then slider_method timeSlider call_play
    else ret tt
  else if is_null timeSlider then log "No timeSlider component found." ArgNone
  else log "No timeSlider configuration found in choreography." ArgNone.

Definition initMapAnimator (choreographyPath : string) (answer : FetchOutcome) : M unit :=
  loadChoreography choreographyPath answer ;;
  setupHashListener ;;
  configureTimeSlider ;;
  setupResetButton.

(** Declared in main.js, and called from nowhere. *)
Definition updateResetButtonState : M unit :=
  config <- current_config ;;
  autoplay <- (if negb (truthy config) then ret false
               else (a <- lift (get config "timeSliderAutoplay") ;; ret (truthy a))) ;;
  if (autoplay : bool) then
    modify (set_resetButton_disabled false) ;;
    timeSlider <- gets timeSliderGlobal ;;
    slider_method timeSlider call_stop
  else
    modify (set_resetButton_disabled true).

(** A pending promise settles: it leaves the list and its continuation
    runs. *)
Definition settle (n : nat) (outcome : Settlement) : M unit :=
  p <- gets (fun w => pending w !! n) ;;
  match p with
  | None => ret tt
  | Some promise =>
      modify (set_pending (delete n)) ;;
      match promise with
      | goTo_promise message =>
          match outcome with
          | Fulfilled => ret tt
          | Rejected reason => console_error_ message (ArgError reason)
          end
      | when_promise trackLayer trackRenderer field unit step =>
          applyTrackRenderer_resume outcome trackLayer trackRenderer field unit step
      end
  end.

(** What the browser delivers to the page: the view becoming ready (with
    what the network will answer to the fetch of the choreography), a
    hashchange, a click on the reset button, the settlement of a pending
    promise. *)
Inductive Event : Type :=
| ViewReady (choreographyPath : string) (answer : FetchOutcome)
| HashChange (location_hash : string)
| Click
| Settle (n : nat) (outcome : Settlement).

Definition handle (ev : Event) : M unit :=
  match ev with
  | ViewReady path answer => initMapAnimator path answer
  | HashChange location_hash =>
      installed <- gets hashchange_listener ;;
      if (installed : bool) then on_hashchange location_hash else ret tt
  | Click =>
      installed <- gets click_listener ;;
      if (installed : bool) then on_click else ret tt
  | Settle n outcome => settle n outcome
  end.

Fixpoint run (events : list Event) (w : World) : World :=
  match events with
  | [] => w
  | ev :: rest => run rest (snd (handle ev w))
  end.

(** The page when the view becomes ready: the map holds [mapLayers], no
    listener is installed, and the module variables have their initial
    values. *)
Definition initial_world (document_slider : sliderRef) (debugMode : bool)
    (mapLayers : list Layer) (sliderState : string) (buttonDisabled : bool) : World :=
  mkWorld mapLayers (seq 0 (length mapLayers))
    (mkTimeSlider None None None sliderState)
    [] [] [] []
    document_slider (VArr []) (Num 0) false buttonDisabled false false debugMode.

(** ** Vocabulary of the properties *)





(** The index [choreographyData[n]] misses the sequence [slides]: [n] is
    NaN, negative, or not below the length. *)
Definition out_of_range (slides : list value) (n : jsnum) : Prop :=
  match n with
  | NaN => True
  | Num z => (z < 0 \/ Z.of_nat (length slides) <= z)%Z
  end.

(** What [on_hashchange] logs for a fragment it does not dispatch, when
    debug logging is on. *)
Definition ignored_hash_messages (debug : bool) (location_hash : string)
  : list ConsoleEntry :=
  if debug then
    [console_log ("Hash changed to: " ++ location_hash) ArgNone;
     console_log "No valid hash index found." ArgNone]
  else [].

(** The keys of a slide whose handler [slideAnimation] calls: those
    [choreographyHandlers] has a member for, less the excluded ones when
    embedded. *)
Definition dispatched (embedded : bool) (keys : list string) : list string :=
  List.filter
    (fun key =>
       match choreographyHandlers key with
       | Some _ => negb (embedded && has NON_EMBED_EXCLUDE_KEYS key)
       | None => false
       end)
    keys.


Definition is_goTo (c : SdkCall) : bool :=
  match c with
  | call_goTo _ _ _ => true
  | _ => false
  end.

(** A [goTo] whose target was built by [Viewpoint.fromJSON]. *)
Definition is_viewpoint_goTo (c : SdkCall) : bool :=
  match c with
  | call_goTo (fromJSON ViewpointClass _) _ _ => true
  | _ => false
  end.

(** A computation every run of which relates the state it starts in to
    the state it ends in. *)
Definition preserves (R : World -> World -> Prop) {A : Type} (m : M A) : Prop :=
  forall w, R w (snd (m w)).

(** A step that leaves the history of called handlers alone. *)
Definition invoked_same (w w' : World) : Prop :=
  invoked w' = invoked w.

(** A step that only adds to the console. *)
Definition console_extends (w w' : World) : Prop :=
  exists entries, console w' = console w ++ entries.

(** A step that only adds to the SDK call log, and no transition to a
    viewpoint. *)
Definition no_viewpoint_goTo (w w' : World) : Prop :=
  exists calls,
    sdkCalls w' = sdkCalls w ++ calls /\
    forallb (fun c => negb (is_viewpoint_goTo c)) calls = true.

(** The message logged when a pending promise rejects. *)
Definition rejection_message (promise : Pending) : string :=
  match promise with
  | goTo_promise message => message
  | when_promise _ _ _ _ _ => "Failed to set track Renderer:"
  end.

(** The messages [setLayerVisibility] logs: one for each layer of the
    collection whose title is among the names, in collection order. *)
Definition visibility_log (names : list value) (visibility : bool)
    (ls : list Layer) (refs : list nat) : list ConsoleEntry :=
  flat_map
    (fun ref =>
       match ls !! ref with
       | Some l =>
           if named names (title l) then
             [console_log ("Layer '" ++ title l ++ "' visibility set to "
                           ++ boolean_to_string visibility) ArgNone]
           else []
       | None => []
       end)
    refs.

(** The layer objects after [setLayerVisibility] has gone through the
    collection. *)
Fixpoint show_named (names : list value) (visibility : bool) (refs : list nat)
    (ls : list Layer) : list Layer :=
  match refs with
  | [] => ls
  | ref :: rest =>
      show_named names visibility rest
        match ls !! ref with
        | Some l =>
            if named names (title l) then <[ref := set_visible visibility l]> ls
            else ls
        | None => ls
        end
  end.

(** Every reference of the map's collection names a layer object. *)
Definition collection_allocated (w : World) : Prop :=
  Forall (fun ref => ref < length (layers w)) (mapLayers w).

(** [trackLayer] is the first layer of the collection titled [name]: the
    collection is [pre ++ trackLayer :: post] and no layer of [pre] has
    that title. *)
Definition first_titled (name : string) (pre : list nat) (trackLayer : nat)
    (post : list nat) (l : Layer) (w : World) : Prop :=
  mapLayers w = pre ++ trackLayer :: post /\
  layers w !! trackLayer = Some l /\
  title l = name /\
  Forall (fun ref => exists l', layers w !! ref = Some l' /\ title l' <> name) pre.

(** The slide names the track layer [name] and the track field, carries
    track info, and has a [timeSlider] value [cfg] (not null or undefined)
    with unit [U] and step [S]. *)
Definition trackRenderer_config (slideData trackRenderer : value) (name : string)
    (trackLayerField info cfg U S : value) : Prop :=
  get slideData "trackRenderer" = Normal trackRenderer /\
  get trackRenderer "trackLayerName" = Normal (VStr name) /\
  get trackRenderer "trackFieldName" = Normal trackLayerField /\
  get trackRenderer "trackInfo" = Normal info /\
  get slideData "timeSlider" = Normal cfg /\
  get cfg "timeSliderUnit" = Normal U /\
  get cfg "timeSliderStep" = Normal S.

(** The page once [toggleTrackRenderer] has reached its [await]: the
    clone of [l] is allocated, it stands in the collection where the
    track layer stood, the four SDK calls are logged in order, and the
    promise of [when] is pending. *)
Definition track_layer_reset (pre post : list nat) (trackLayer : nat) (l : Layer)
    (name : string) (promise : Pending) (w : World) : World :=
  let clone := length (layers w) in
  set_pending (fun p => p ++ [promise])
    (set_sdkCalls
       (fun cs => cs ++ [call_remove trackLayer; call_clone trackLayer clone;
                         call_add clone (length pre); call_when clone])
       (set_console
          (fun c => c ++ [console_log "Applying track renderer:" (ArgValue (VStr name))])
          (set_mapLayers (fun _ => pre ++ clone :: post)
             (set_layers (fun ls => ls ++ [l]) w)))).

(** What the click listener logs after a reset, when debug logging is
    on. *)
Definition reset_messages (debug : bool) : list ConsoleEntry :=
  if debug then [console_log "Animation reset and replayed." ArgNone] else [].

Definition replay_calls (sliderState : string) : list SdkCall :=
  if (sliderState =? "ready")%string then [call_play] else [].

(** A step that keeps every reference of the collection allocated. *)
Definition keeps_allocated (w w' : World) : Prop :=
  collection_allocated w -> collection_allocated w'.

(** ** Sample data

    A slide shaped as the data model describes it, and a page to run it
    on. *)

Definition sample_timeSlider : value :=
  VObj [("timeSliderStart", VStr "2024-05-01T06:00:00Z");
        ("timeSliderEnd", VStr "2024-05-01T09:00:00Z");
        ("timeSliderUnit", VStr "minutes");
        ("timeSliderStep", VNum (Num 5));
        ("timeSliderAutoplay", VBool true)].

Definition sample_trackRenderer : value :=
  VObj [("trackLayerName", VStr "Buses");
        ("trackFieldName", VStr "vehicle_id");
        ("trackInfo", VObj [("enabled", VBool true)])].

Definition sample_slide : value :=
  VObj [("viewpoint", VObj [("scale", VNum (Num 50000))]);
        ("timeSlider", sample_timeSlider);
        ("layerVisibility",
         VObj [("layersOn", VArr [VStr "Stops"]); ("layersOff", VArr [VStr "Routes"])]);
        ("trackRenderer", sample_trackRenderer)].

Definition sample_timeInfo : TimeInfo :=
  mkTimeInfo (VStr "timestamp") VUndefined (mkInterval VUndefined VUndefined).

Definition sample_layers : list Layer :=
  [mkLayer "Stops" false None VNull;
   mkLayer "Buses" true (Some sample_timeInfo) VNull;
   mkLayer "Routes" true None VNull].

(** The sample page once [sample_slide] is the loaded choreography. *)
Definition sample_world (sliderState : string) : World :=
  snd (initMapAnimator "choreography.json" (json_resolves (VArr [sample_slide]))
         (initial_world sliderElement false sample_layers sliderState true)).

(** A slide whose camera handler throws and whose timeSlider handler
    does not. *)
Definition sample_failing_slide : value :=
  VObj [("camera", VObj [("heading", VNum (Num 90))]);
        ("timeSlider", sample_timeSlider)].

(** A slide that names a track layer and has no [timeSlider] field. *)
Definition sample_track_only_slide : value :=
  VObj [("trackRenderer", sample_trackRenderer)].

(** ** Vocabulary of the further properties *)

(** The integer a decimal numeral denotes, read digit by digit from an
    accumulator. *)
Fixpoint uint_value (acc : Z) (d : uint) : Z :=
  match d with
  | Nil => acc
  | D0 d => uint_value (10 * acc + 0) d
  | D1 d => uint_value (10 * acc + 1) d
  | D2 d => uint_value (10 * acc + 2) d
  | D3 d => uint_value (10 * acc + 3) d
  | D4 d => uint_value (10 * acc + 4) d
  | D5 d => uint_value (10 * acc + 5) d
  | D6 d => uint_value (10 * acc + 6) d
  | D7 d => uint_value (10 * acc + 7) d
  | D8 d => uint_value (10 * acc + 8) d
  | D9 d => uint_value (10 * acc + 9) d
  end.

Definition starts_with_digit (s : string) : bool :=
  match s with
  | String c _ => is_digit c
  | EmptyString => false
  end.

(** [null] or [undefined]. *)
Definition nullish (v : value) : bool :=
  match v with
  | VUndefined | VNull => true
  | _ => false
  end.

(** What [on_hashchange] logs before it dispatches, when debug logging is
    on. *)
Definition hash_changed_messages (debug : bool) (location_hash : string)
  : list ConsoleEntry :=
  if debug then [console_log ("Hash changed to: " ++ location_hash) ArgNone] else [].

(** The sample page without a time slider element, once [sample_slide]
    is the loaded choreography. *)
Definition sample_world_without_slider : World :=
  snd (initMapAnimator "choreography.json" (json_resolves (VArr [sample_slide]))
         (initial_world sliderNull false sample_layers "ready" true)).



(** A slide whose timeSlider field has a start and no end. *)
Definition sample_slide_without_end : value :=
  VObj [("timeSlider", VObj [("timeSliderStart", VStr "2024-05-01T06:00:00Z")])].



(** The sequence the page holds once [loadChoreography] is over: the
    parsed data, or what it held before when the fetch or the parse
    failed. *)
Definition loaded_data (answer : FetchOutcome) (w : World) : value :=
  match answer with
  | json_resolves data => data
  | fetch_rejects _ | json_rejects _ => choreographyData w
  end.

Definition load_messages (debug : bool) (answer : FetchOutcome) : list ConsoleEntry :=
  match answer with
  | json_resolves data => if debug then [console_log "Loaded data" (ArgValue data)] else []
  | fetch_rejects reason | json_rejects reason =>
      [console_error "Failed to load choreography:" (ArgError reason)]
  end.

(** The SDK calls other than [stop] that the program can make: a [goTo]
    to a viewpoint, animated over 1000 ms, and [play], [remove], [clone],
    [add] and [when]. *)
Definition page_call (c : SdkCall) : bool :=
  match c with
  | call_goTo (fromJSON ViewpointClass _) true 1000 => true
  | call_goTo _ _ _ => false
  | call_stop => false
  | call_play | call_remove _ | call_clone _ _ | call_add _ _ | call_when _ => true
  end.

(** A step that leaves the reset button's [disabled] property and the
    embedded flag alone. *)
Definition wiring_same (w w' : World) : Prop :=
  resetButton_disabled w' = resetButton_disabled w /\
  isEmbedded w' = isEmbedded w.

(** A step that leaves the embedded flag alone and only adds calls of
    [page_call] to the SDK call log. *)
Definition no_stop (w w' : World) : Prop :=
  isEmbedded w' = isEmbedded w /\
  exists calls,
    sdkCalls w' = sdkCalls w ++ calls /\
    forallb page_call calls = true.

(** [R] for the steps that start with the embedded flag at [flag], which
    they keep. *)
Definition while_embedded (flag : bool) (R : World -> World -> Prop)
    (w w' : World) : Prop :=
  isEmbedded w = flag -> R w w' /\ isEmbedded w' = flag.

(** The error [applyTrackRenderer] catches after its [await]: the reason
    of the rejection, or the TypeError of reading [startField] of a
    missing [timeInfo]. *)
Definition resume_error (outcome : Settlement) : error :=
  match outcome with
  | Rejected reason => reason
  | Fulfilled => TypeError "Cannot read properties of null"
  end.

(** A slide that names a track layer without time info. *)
Definition sample_stops_slide : value :=
  VObj [("timeSlider", sample_timeSlider);
        ("trackRenderer",
         VObj [("trackLayerName", VStr "Stops"); ("trackFieldName", VStr "stop_id")])].

(** A slide that names a track layer the map does not have. *)
Definition sample_trams_slide : value :=
  VObj [("timeSlider", sample_timeSlider);
        ("trackRenderer",
         VObj [("trackLayerName", VStr "Trams"); ("trackFieldName", VStr "tram_id")])].

(** The sample page while the clone of "Stops" is loading. *)
Definition sample_world_stops_loading : World :=
  snd (toggleTrackRenderer (mkContext sample_stops_slide theView sliderElement false)
         (sample_world "ready")).

(** The value gives [setLayerVisibility] no names: it is falsy, or it
    has no [length] (or a null one), or its [length] is an integer that
    is not greater than 0, as that of an empty array is. *)
Definition no_names (layerNames : value) : Prop :=
  truthy layerNames = false \/
  get layerNames "length" = Normal VUndefined \/
  get layerNames "length" = Normal VNull \/
  exists z, get layerNames "length" = Normal (VNum (Num z)) /\ (z <= 0)%Z.

(** What [toggleLayerVisibility] makes of a layer object at reference
    [i]. *)
Definition shown (layersOn layersOff : list value) (refs : list nat) (i : nat)
    (l : Layer) : Layer :=
  if bool_decide (i ∈ refs) && named layersOff (title l) then set_visible false l
  else if bool_decide (i ∈ refs) && named layersOn (title l) then set_visible true l
  else l.

(** [Number.MAX_SAFE_INTEGER]: up to it, in absolute value, the integers
    are JavaScript numbers, and the decimal form of one is what
    Number::toString gives. *)
Definition MAX_SAFE_INTEGER : Z := 2 ^ 53 - 1.

(** * Properties *)

(** Evaluates the field updates of a state, innermost first. *)
Ltac eval_setters :=
  cbv beta iota delta
    [set_layers set_mapLayers set_slider set_sdkCalls set_console set_pending
     set_invoked set_choreographyData set_hashIndex set_resetButton_disabled
     set_hashchange_listener set_click_listener
     layers mapLayers slider sdkCalls console pending invoked timeSliderGlobal
     choreographyData hashIndex isEmbedded resetButton_disabled
     hashchange_listener click_listener DEBUG].

(** Unfolds the state-passing operations. *)
Ltac run_js :=
  repeat (progress (unfold bind, ret, lift, gets, modify, throw, try_catch, log,
                      console_log_, console_error_, sdk_call;
                    eval_setters;
                    cbn -[get number_to_string parseInt])).

Lemma bind_lift_normal {A B : Type} (a : A) (k : A -> M B) (w : World) :
  bind (lift (Normal a)) k w = k a w.
Proof. reflexivity. Qed.

Lemma bind_gets {A B : Type} (f : World -> A) (k : A -> M B) (w : World) :
  bind (gets f) k w = k (f w) w.
Proof. reflexivity. Qed.

(** ** Reading JSON values *)

Example parseInt_examples :
  parseInt "3" = Num 3 /\ parseInt "12abc" = Num 12 /\ parseInt "-1" = Num (-1) /\
  parseInt "" = NaN /\ parseInt "next" = NaN /\ parseInt " 7" = Num 7.
Proof. repeat split. Qed.

Example get_examples :
  get (VArr [VStr "a"; VStr "b"]) "1" = Normal (VStr "b") /\
  get (VArr [VStr "a"; VStr "b"]) "01" = Normal VUndefined /\
  get (VArr [VStr "a"; VStr "b"]) "length" = Normal (VNum (Num 2)) /\
  get (VObj [("timeSlider", VNull)]) "timeSlider" = Normal VNull /\
  get (VObj [("timeSlider", VNull)]) "camera" = Normal VUndefined /\
  get VUndefined "timeSlider" = Throw (TypeError "Cannot read properties of undefined").
Proof. repeat split. Qed.



Lemma number_to_string_nonneg (z : Z) :
  (0 <= z)%Z ->
  exists d, number_to_string (Num z) = NilEmpty.string_of_uint d /\ Z.of_uint d = z.
Proof.
  intros Hz. destruct z as [|p|p]; [| |lia].
  - exists (D0 Nil). split; reflexivity.
  - exists (Pos.to_uint p). split.
    + simpl. pose proof (DecimalPos.Unsigned.to_uint_nonnil p) as Hnil.
      destruct (Pos.to_uint p); [contradiction|reflexivity..].
    + unfold Z.of_uint. rewrite DecimalPos.Unsigned.of_to. reflexivity.
Qed.

Lemma array_index_nonneg (z : Z) :
  (0 <= z)%Z -> array_index (number_to_string (Num z)) = Some (Z.to_nat z).
Proof.
  intros Hz. destruct (number_to_string_nonneg z Hz) as (d & Hs & Hd).
  unfold array_index. rewrite Hs at 1. rewrite NilEmpty.usu, Hd.
  rewrite String.eqb_refl. reflexivity.
Qed.

Lemma array_index_negative (z : Z) :
  (z < 0)%Z -> array_index (number_to_string (Num z)) = None.
Proof.
  intros Hz. destruct z as [|p|p]; [lia|lia|].
  unfold array_index; simpl.
  destruct (NilEmpty.uint_of_string (NilZero.string_of_uint (Pos.to_uint p)));
    reflexivity.
Qed.

Lemma number_to_string_not_length (n : jsnum) :
  (number_to_string n =? "length")%string = false.
Proof.
  destruct n as [|z]; [reflexivity|].
  destruct (Z_lt_le_dec z 0) as [Hneg|Hpos].
  - destruct z as [|p|p]; [lia|lia|]. reflexivity.
  - destruct (number_to_string_nonneg z Hpos) as (d & Hs & _).
    destruct (String.eqb_spec (number_to_string (Num z)) "length") as [E|_];
      [|reflexivity].
    rewrite E in Hs.
    assert (H : NilEmpty.uint_of_string "length" = Some d)
      by (rewrite Hs; apply NilEmpty.usu).
    discriminate H.
Qed.

(** [items[n]] for a number [n]: the element at a natural index within
    the array, [undefined] otherwise. *)
Lemma get_array_number (items : list value) (n : jsnum) :
  get (VArr items) (number_to_string n) =
    Normal match n with
           | NaN => VUndefined
           | Num z => if (z <? 0)%Z then VUndefined
                      else default VUndefined (items !! Z.to_nat z)
           end.
Proof.
  unfold get. rewrite number_to_string_not_length.
  destruct n as [|z]; [reflexivity|].
  destruct (Z.ltb_spec z 0) as [Hneg|Hpos].
  - rewrite array_index_negative by assumption. reflexivity.
  - rewrite array_index_nonneg by assumption.
    destruct (items !! Z.to_nat z); reflexivity.
Qed.

(** ** The timeSlider handler *)









(** ** The camera handler *)

(** C2: a slide whose camera field is absent or falsy makes the handler a
    no-op; a slide whose camera field is truthy makes it stop at
    [Camera.fromJSON] with a ReferenceError, the module importing
    [Viewpoint] only: no [goTo] is made and the page is left as it was. *)
Theorem toggleCamera_no_transition (slideData cameraData : value)
    (ref : sliderRef) (embedded : bool) (w : World) :
  get slideData "camera" = Normal cameraData ->
  toggleCamera (mkContext slideData theView ref embedded) w =
    if truthy cameraData then (Throw (ReferenceError "Camera"), w)
    else (Normal tt, w).
Proof.
  intros Hget. unfold toggleCamera, bind, lift; simpl. rewrite Hget.
  destruct (truthy cameraData); reflexivity.
Qed.

Lemma toggleCamera_no_transition_witness :
  get (VObj [("camera", VObj [("heading", VNum (Num 90))])]) "camera" =
    Normal (VObj [("heading", VNum (Num 90))]) /\
  toggleCamera
    (mkContext (VObj [("camera", VObj [("heading", VNum (Num 90))])])
       theView sliderElement false) (sample_world "ready") =
    (Throw (ReferenceError "Camera"), sample_world "ready").
Proof.
  split; [reflexivity|].
  exact (toggleCamera_no_transition
           (VObj [("camera", VObj [("heading", VNum (Num 90))])])
           (VObj [("heading", VNum (Num 90))]) sliderElement false
           (sample_world "ready") eq_refl).
Defined.

(** ** The reset button *)

(** Whatever the slide, the listener takes the start time from the field
    [timeSliderStart] of the slide itself, and leaves the button as it
    is. *)
Lemma on_click_configured (config start : value) (w : World) :
  current_config w = (Normal config, w) ->
  truthy config = true ->
  get config "timeSliderStart" = Normal start ->
  timeSliderGlobal w = sliderElement ->
  on_click w =
    (Normal tt,
     set_console (fun c => c ++ reset_messages (DEBUG w))
       (set_sdkCalls (fun cs => cs ++ replay_calls (state (slider w)))
          (set_slider (set_timeExtent (mkTimeExtent None (Some (NewDate start)))) w))).
Proof.
  intros Hconfig Htruthy Hstart Hslider.
  unfold on_click, bind at 1. rewrite Hconfig, Htruthy.
  rewrite bind_gets, Hslider, Hstart, bind_lift_normal.
  destruct w as [ls ml [fe te st sta] calls con pend inv tsg cd hi ie rb hl cl dbg].
  unfold reset_messages, replay_calls, slider_write, slider_read, slider_method.
  run_js.
  destruct (sta =? "ready")%string; destruct dbg; run_js;
    rewrite ?app_nil_r; reflexivity.
Qed.

(** C1: on the sample page, whose current slide nests its start time and
    its autoplay flag under [timeSlider] as the data model has it, a click
    sets the slider's time extent to end at [new Date(undefined)], the
    listener reading [timeSliderStart] from the top level of the slide;
    [play] is called, the slider being ready; and the button, disabled
    before the click, stays disabled although the slide declares
    autoplay. *)
Theorem on_click_sample_slide :
  let w := sample_world "ready" in
  let result := on_click w in
  current_config w = (Normal sample_slide, w) /\
  get sample_timeSlider "timeSliderAutoplay" = Normal (VBool true) /\
  fst result = Normal tt /\
  timeExtent (slider (snd result)) =
    Some (mkTimeExtent None (Some (NewDate VUndefined))) /\
  sdkCalls (snd result) = sdkCalls w ++ [call_play] /\
  resetButton_disabled w = true /\
  resetButton_disabled (snd result) = true.
Proof. vm_compute. repeat split. Qed.

(** ** The hashchange listener *)

Lemma get_out_of_range (slides : list value) (n : jsnum) :
  out_of_range slides n ->
  get (VArr slides) (number_to_string n) = Normal VUndefined.
Proof.
  intros Hout. rewrite get_array_number.
  destruct n as [|z]; [reflexivity|]. simpl in Hout.
  destruct (Z.ltb_spec z 0) as [Hneg|Hpos]; [reflexivity|].
  rewrite lookup_ge_None_2 by lia. reflexivity.
Qed.


Lemma on_hashchange_ignored (slides : list value) (location_hash : string)
    (w : World) :
  choreographyData w = VArr slides ->
  out_of_range slides (parseInt (substring_from_1 location_hash)) ->
  on_hashchange location_hash w =
    (Normal tt,
     set_console (fun c => c ++ ignored_hash_messages (DEBUG w) location_hash)
       (set_hashIndex (parseInt (substring_from_1 location_hash)) w)).
Proof.
  intros Hdata Hout.
  pose proof (get_out_of_range slides _ Hout) as Hget.
  destruct w as [ls ml sl calls con pend inv tsg cd hi ie rb hl cl dbg];
    simpl in Hdata; subst cd.
  unfold on_hashchange, current_config, ignored_hash_messages, set_console,
    set_hashIndex.
  destruct dbg; run_js;
    (destruct (parseInt (substring_from_1 location_hash)) as [|z] eqn:Hp;
     run_js; [| rewrite Hget; run_js ]);
    rewrite <- ?app_assoc, ?app_nil_r; reflexivity.
Qed.



(** ** Loading the choreography *)

Lemma out_of_range_empty (n : jsnum) : out_of_range [] n.
Proof. destruct n as [|z]; simpl; [exact I | lia]. Qed.

(** C3: when the fetch or the JSON parse fails on a page that has a time
    slider, the failure is logged and the sequence stays empty, and no
    later hashchange dispatches anything or throws; but
    [configureTimeSlider] reads [timeSlider] of the missing first slide,
    so [initMapAnimator] ends with a TypeError and the reset button's
    listener is never installed. *)
Theorem initMapAnimator_load_failure (path : string) (answer : FetchOutcome)
    (reason : error) (w : World) :
  answer = fetch_rejects reason \/ answer = json_rejects reason ->
  choreographyData w = VArr [] ->
  timeSliderGlobal w = sliderElement ->
  let result := initMapAnimator path answer w in
  fst result = Throw (TypeError "Cannot read properties of undefined") /\
  console (snd result) =
    console w ++ [console_error "Failed to load choreography:" (ArgError reason)] /\
  choreographyData (snd result) = VArr [] /\
  hashchange_listener (snd result) = true /\
  click_listener (snd result) = click_listener w /\
  forall location_hash,
    let navigation := on_hashchange location_hash (snd result) in
    fst navigation = Normal tt /\
    invoked (snd navigation) = invoked w /\
    sdkCalls (snd navigation) = sdkCalls w.
Proof.
  intros Hans Hdata Hslider result. subst result.
  destruct w as [ls ml sl calls con pend inv tsg cd hi ie rb hl cl dbg];
    simpl in Hdata, Hslider; subst cd tsg.
  assert (Hrun : exists w',
            initMapAnimator path answer
              (mkWorld ls ml sl calls con pend inv sliderElement (VArr []) hi ie rb hl
                 cl dbg) =
              (Throw (TypeError "Cannot read properties of undefined"), w') /\
            console w' =
              con ++ [console_error "Failed to load choreography:" (ArgError reason)] /\
            choreographyData w' = VArr [] /\ hashchange_listener w' = true /\
            click_listener w' = cl /\ invoked w' = inv /\ sdkCalls w' = calls)
    by (destruct Hans as [-> | ->]; eexists; vm_compute; repeat split).
  destruct Hrun as (w' & -> & Hcon & Hcd & Hhl & Hcl & Hinv & Hcalls).
  simpl. repeat (split; [assumption || reflexivity|]).
  intros location_hash.
  rewrite (on_hashchange_ignored [] location_hash w' Hcd (out_of_range_empty _)).
  simpl. repeat split; assumption.
Qed.

Lemma initMapAnimator_load_failure_witness :
  (fetch_rejects (HostError "Failed to fetch") = fetch_rejects (HostError "Failed to fetch") \/
   fetch_rejects (HostError "Failed to fetch") = json_rejects (HostError "Failed to fetch")) /\
  choreographyData (initial_world sliderElement false sample_layers "ready" true) = VArr [] /\
  timeSliderGlobal (initial_world sliderElement false sample_layers "ready" true) =
    sliderElement /\
  fst (initMapAnimator "choreography.json" (fetch_rejects (HostError "Failed to fetch"))
         (initial_world sliderElement false sample_layers "ready" true)) =
    Throw (TypeError "Cannot read properties of undefined").
Proof.
  split; [left; reflexivity|]. split; [reflexivity|]. split; [reflexivity|].
  exact (proj1 (initMapAnimator_load_failure "choreography.json" _
           (HostError "Failed to fetch")
           (initial_world sliderElement false sample_layers "ready" true)
           (or_introl eq_refl) eq_refl eq_refl)).
Defined.

(** ** Steps that preserve a relation between states *)

Section Preservation.
Context (R : World -> World -> Prop).
Hypothesis R_refl : forall w, R w w.
Hypothesis R_trans : forall w1 w2 w3, R w1 w2 -> R w2 w3 -> R w1 w3.

Lemma preserves_ret {A : Type} (a : A) : preserves R (ret a).
Proof using R_refl. intros w. apply R_refl. Qed.

Lemma preserves_throw {A : Type} (e : error) : preserves R (@throw A e).
Proof using R_refl. intros w. apply R_refl. Qed.

Lemma preserves_lift {A : Type} (c : completion A) : preserves R (lift c).
Proof using R_refl. intros w. apply R_refl. Qed.

Lemma preserves_gets {A : Type} (f : World -> A) : preserves R (gets f).
Proof using R_refl. intros w. apply R_refl. Qed.

Lemma preserves_modify (f : World -> World) :
  (forall w, R w (f w)) -> preserves R (modify f).
Proof using Type. intros H w. apply H. Qed.

Lemma preserves_bind {A B : Type} (m : M A) (k : A -> M B) :
  preserves R m -> (forall a, preserves R (k a)) -> preserves R (bind m k).
Proof using R_trans.
  intros Hm Hk w. unfold bind. specialize (Hm w).
  destruct (m w) as [[a|e] w1]; simpl in *; [|assumption].
  eapply R_trans; [exact Hm | apply Hk].
Qed.

Lemma preserves_try_catch {A : Type} (m : M A) (handler : error -> M A) :
  preserves R m -> (forall e, preserves R (handler e)) ->
  preserves R (try_catch m handler).
Proof using R_trans.
  intros Hm Hh w. unfold try_catch. specialize (Hm w).
  destruct (m w) as [[a|e] w1]; simpl in *; [assumption|].
  eapply R_trans; [exact Hm | apply Hh].
Qed.

Lemma preserves_forEach {A : Type} (l : list A) (f : A -> M unit) :
  (forall x, preserves R (f x)) -> preserves R (forEach l f).
Proof using R_refl R_trans.
  intros Hf. induction l as [|x rest IH]; simpl.
  - apply preserves_ret.
  - apply preserves_bind; [apply Hf | intros _; exact IH].
Qed.

Lemma preserves_layer_get (ref : nat) : preserves R (layer_get ref).
Proof using R_refl.
  intros w. unfold layer_get. destruct (layers w !! ref); apply R_refl.
Qed.
End Preservation.

(** The three steps of [applyTrackRenderer] on the collection and the
    update of a layer preserve any relation that arbitrary changes of the
    layer objects and of the collection preserve. *)
Section Primitives.
Context (R : World -> World -> Prop).
Hypothesis R_refl : forall w, R w w.
Hypothesis R_trans : forall w1 w2 w3, R w1 w2 -> R w2 w3 -> R w1 w3.
Hypothesis R_call : forall c, is_goTo c = false -> preserves R (sdk_call c).
Hypothesis R_layers : forall f w, R w (set_layers f w).
Hypothesis R_mapLayers : forall f w, R w (set_mapLayers f w).

Lemma primitive_layer_update (ref : nat) (f : Layer -> Layer) :
  preserves R (layer_update ref f).
Proof using R_refl R_trans R_layers.
  unfold layer_update.
  apply (preserves_bind R R_trans); [apply (preserves_layer_get R R_refl)|].
  intros l. apply preserves_modify, R_layers.
Qed.

Lemma primitive_map_remove (ref : nat) : preserves R (map_remove ref).
Proof using R_trans R_call R_mapLayers.
  unfold map_remove.
  apply (preserves_bind R R_trans); [apply R_call; reflexivity|].
  intros _. apply preserves_modify, R_mapLayers.
Qed.

Lemma primitive_clone_add (ref index : nat) (k : nat -> M unit) :
  (forall clone, preserves R (k clone)) ->
  preserves R (clone <- layer_clone ref ;; map_add clone index ;; k clone).
Proof using R_refl R_trans R_call R_layers R_mapLayers.
  intros Hk. unfold layer_clone, map_add.
  repeat first
    [ apply (preserves_ret R R_refl)
    | apply (preserves_gets R R_refl)
    | apply (preserves_layer_get R R_refl)
    | apply Hk
    | apply R_call; reflexivity
    | apply preserves_modify; first [apply R_layers | apply R_mapLayers]
    | apply (preserves_bind R R_trans); [| intros ?] ].
Qed.
End Primitives.

(** The handlers other than [toggleViewpoint] preserve any relation that
    the console, the slider, the pending promises, the SDK calls other
    than [goTo], the update of a layer and the three steps of
    [applyTrackRenderer] on the collection preserve. *)
Section Handlers.
Context (R : World -> World -> Prop).
Hypothesis R_refl : forall w, R w w.
Hypothesis R_trans : forall w1 w2 w3, R w1 w2 -> R w2 w3 -> R w1 w3.
Hypothesis R_log : forall message arg, preserves R (console_log_ message arg).
Hypothesis R_error : forall message arg, preserves R (console_error_ message arg).
Hypothesis R_call : forall c, is_goTo c = false -> preserves R (sdk_call c).
Hypothesis R_layer_update : forall ref f, preserves R (layer_update ref f).
Hypothesis R_remove : forall ref, preserves R (map_remove ref).
Hypothesis R_clone_add : forall ref index (k : nat -> M unit),
  (forall clone, preserves R (k clone)) ->
  preserves R (clone <- layer_clone ref ;; map_add clone index ;; k clone).
Hypothesis R_slider : forall f w, R w (set_slider f w).
Hypothesis R_pending : forall f w, R w (set_pending f w).

Ltac frame_step :=
  first
    [ apply (preserves_ret R R_refl)
    | apply (preserves_throw R R_refl)
    | apply (preserves_lift R R_refl)
    | apply (preserves_gets R R_refl)
    | apply (preserves_layer_get R R_refl)
    | apply R_log
    | apply R_error
    | apply R_call; reflexivity
    | apply R_layer_update
    | apply R_remove
    | apply R_clone_add; intros ?
    | apply preserves_modify; first [apply R_slider | apply R_pending]
    | apply (preserves_bind R R_trans); [| intros ?]
    | apply (preserves_try_catch R R_trans); [| intros ?]
    | apply (preserves_forEach R R_refl R_trans); intros ?
    | match goal with
      | |- preserves _ (if ?b then _ else _) => destruct b
      | |- preserves _ (match ?x with _ => _ end) => destruct x
      end ].

Ltac frame := cbv zeta; repeat frame_step.

Lemma preserves_slider_write (ref : sliderRef) (f : TimeSlider -> TimeSlider) :
  preserves R (slider_write ref f).
Proof using R_refl R_slider. unfold slider_write. frame. Qed.

Lemma preserves_slider_read {A : Type} (ref : sliderRef) (f : TimeSlider -> A) :
  preserves R (slider_read ref f).
Proof using R_refl. unfold slider_read. frame. Qed.

Lemma preserves_slider_method (ref : sliderRef) (c : SdkCall) :
  is_goTo c = false -> preserves R (slider_method ref c).
Proof using R_refl R_call.
  intros Hc. unfold slider_method. destruct ref; [frame | apply R_call, Hc].
Qed.

Lemma preserves_has_timeSlider_config (ref : sliderRef) (slideData : value) :
  preserves R (has_timeSlider_config ref slideData).
Proof using R_refl R_trans. unfold has_timeSlider_config. frame. Qed.

Lemma preserves_toggleCamera (ctx : Context) : preserves R (toggleCamera ctx).
Proof using R_refl R_trans.
  unfold toggleCamera. frame.
Qed.

Lemma preserves_toggleTimeSlider (ctx : Context) : preserves R (toggleTimeSlider ctx).
Proof using R_refl R_trans R_log R_call R_slider.
  unfold toggleTimeSlider. cbv zeta.
  apply (preserves_bind R R_trans); [apply preserves_has_timeSlider_config|].
  intros configured. destruct configured; [|frame].
  repeat first [ apply preserves_slider_write | apply preserves_slider_read
               | apply preserves_slider_method; reflexivity | frame_step ].
Qed.

Lemma preserves_setLayerVisibility (layerNames : value) (visibility : bool) :
  preserves R (setLayerVisibility layerNames visibility).
Proof using R_refl R_trans R_log R_layer_update.
  unfold setLayerVisibility, setLayerVisibility_layer. frame.
Qed.

Lemma preserves_toggleLayerVisibility (ctx : Context) :
  preserves R (toggleLayerVisibility ctx).
Proof using R_refl R_trans R_log R_layer_update.
  unfold toggleLayerVisibility.
  repeat first [ apply preserves_setLayerVisibility | frame_step ].
Qed.

Lemma preserves_find_layer (name : value) (refs : list nat) :
  preserves R (find_layer name refs).
Proof using R_refl R_trans.
  induction refs as [|ref rest IH]; simpl; [frame|].
  apply (preserves_bind R R_trans); [apply (preserves_layer_get R R_refl)|].
  intros l. destruct name; try exact IH.
  destruct (title l =? s)%string; [frame | exact IH].
Qed.

Lemma preserves_applyTrackRenderer (trackRenderer timeSlider : value) :
  preserves R (applyTrackRenderer trackRenderer timeSlider).
Proof using R_refl R_trans R_log R_error R_call R_remove R_clone_add R_pending.
  unfold applyTrackRenderer, failed_to_set_track_renderer, await_when.
  repeat first [ apply preserves_find_layer | frame_step ].
Qed.

Lemma preserves_applyTrackRenderer_resume (outcome : Settlement) (trackLayer : nat)
    (trackRenderer field unit step : value) :
  preserves R (applyTrackRenderer_resume outcome trackLayer trackRenderer field unit step).
Proof using R_refl R_trans R_error R_layer_update.
  unfold applyTrackRenderer_resume, failed_to_set_track_renderer. frame.
Qed.

Lemma preserves_toggleTrackRenderer (ctx : Context) :
  preserves R (toggleTrackRenderer ctx).
Proof using R_refl R_trans R_log R_error R_call R_remove R_clone_add R_pending.
  unfold toggleTrackRenderer.
  repeat first [ apply preserves_applyTrackRenderer | frame_step ].
Qed.

Lemma preserves_Object_prototype_member (key : string)
    (handler : Context -> M unit) (ctx : Context) :
  Object_prototype_member key = Some handler -> preserves R (handler ctx).
Proof using R_refl.
  unfold Object_prototype_member. intros H.
  destruct (existsb _ _); [injection H as <-; frame|].
  destruct (existsb _ _); [injection H as <-; frame | discriminate H].
Qed.

Lemma preserves_handler (key : string) (handler : Context -> M unit) (ctx : Context) :
  choreographyHandlers key = Some handler ->
  (key =? "viewpoint")%string = false ->
  preserves R (handler ctx).
Proof using R_refl R_trans R_log R_error R_call R_layer_update R_remove R_clone_add
  R_slider R_pending.
  unfold choreographyHandlers. intros H Hkey. rewrite Hkey in H.
  destruct (key =? "timeSlider")%string;
    [injection H as <-; apply preserves_toggleTimeSlider|].
  destruct (key =? "layerVisibility")%string;
    [injection H as <-; apply preserves_toggleLayerVisibility|].
  destruct (key =? "trackRenderer")%string;
    [injection H as <-; apply preserves_toggleTrackRenderer|].
  destruct (key =? "camera")%string;
    [injection H as <-; apply preserves_toggleCamera|].
  eapply preserves_Object_prototype_member; exact H.
Qed.

Lemma preserves_any_handler (key : string) (handler : Context -> M unit)
    (ctx : Context) :
  (forall c, preserves R (sdk_call c)) ->
  choreographyHandlers key = Some handler ->
  preserves R (handler ctx).
Proof using R_refl R_trans R_log R_error R_call R_layer_update R_remove R_clone_add
  R_slider R_pending.
  intros R_goTo H.
  destruct (key =? "viewpoint")%string eqn:Hkey;
    [| eapply preserves_handler; eassumption].
  unfold choreographyHandlers in H. rewrite Hkey in H. injection H as <-.
  unfold toggleViewpoint, goTo_catch.
  repeat first [ apply R_goTo | frame_step ].
Qed.

Lemma preserves_slideAnimation (slideData : value) (ref : sliderRef) (embedded : bool) :
  (forall c, preserves R (sdk_call c)) ->
  (forall f w, R w (set_invoked f w)) ->
  preserves R (slideAnimation slideData theView ref embedded).
Proof using R_refl R_trans R_log R_error R_call R_layer_update R_remove R_clone_add
  R_slider R_pending.
  intros R_goTo R_invoked. unfold slideAnimation. cbv zeta.
  apply (preserves_bind R R_trans); [apply (preserves_lift R R_refl)|].
  intros entries. apply (preserves_forEach R R_refl R_trans). intros entry.
  unfold slideAnimation_entry. cbv zeta.
  destruct (choreographyHandlers (fst entry)) as [handler|] eqn:Hh; [|frame].
  destruct (_ && _); [frame|].
  apply (preserves_try_catch R R_trans); [| intros e; apply R_error].
  apply (preserves_bind R R_trans); [apply preserves_modify, R_invoked|].
  intros _. eapply preserves_any_handler; eassumption.
Qed.
End Handlers.

(** The three relations the properties below need. *)

Ltac same_world :=
  intros; cbv [invoked_same console_extends no_viewpoint_goTo preserves
               console_log_ console_error_ sdk_call modify snd
               set_layers set_mapLayers set_slider set_sdkCalls set_console
               set_pending set_invoked invoked console sdkCalls];
  first [ reflexivity
        | exists []; rewrite app_nil_r; split; reflexivity
        | exists []; rewrite app_nil_r; reflexivity
        | eexists; split; [reflexivity|];
          match goal with c : SdkCall |- _ => destruct c; try discriminate end;
          reflexivity
        | eexists; reflexivity ].

Lemma invoked_same_refl (w : World) : invoked_same w w.
Proof. reflexivity. Qed.

Lemma invoked_same_trans (w1 w2 w3 : World) :
  invoked_same w1 w2 -> invoked_same w2 w3 -> invoked_same w1 w3.
Proof. unfold invoked_same. congruence. Qed.

Lemma console_extends_refl (w : World) : console_extends w w.
Proof. exists []. symmetry. apply app_nil_r. Qed.

Lemma console_extends_trans (w1 w2 w3 : World) :
  console_extends w1 w2 -> console_extends w2 w3 -> console_extends w1 w3.
Proof.
  intros [c1 H1] [c2 H2]. exists (c1 ++ c2). rewrite H2, H1. symmetry. apply app_assoc.
Qed.



Lemma handler_invoked_same (key : string) (handler : Context -> M unit) (ctx : Context) :
  choreographyHandlers key = Some handler -> preserves invoked_same (handler ctx).
Proof.
  apply (preserves_any_handler invoked_same invoked_same_refl invoked_same_trans);
    try first [ apply primitive_layer_update | apply primitive_map_remove
              | apply primitive_clone_add ];
    try first [ exact invoked_same_refl | exact invoked_same_trans ];
    same_world.
Qed.

Lemma handler_console_extends (key : string) (handler : Context -> M unit)
    (ctx : Context) :
  choreographyHandlers key = Some handler -> preserves console_extends (handler ctx).
Proof.
  apply (preserves_any_handler console_extends console_extends_refl console_extends_trans);
    try first [ apply primitive_layer_update | apply primitive_map_remove
              | apply primitive_clone_add ];
    try first [ exact console_extends_refl | exact console_extends_trans ];
    same_world.
Qed.


(** ** The dispatcher *)

Lemma forEach_normal {A : Type} (l : list A) (f : A -> M unit) (w : World) :
  (forall x w', fst (f x w') = Normal tt) ->
  fst (forEach l f w) = Normal tt.
Proof.
  intros Hf. revert w. induction l as [|x rest IH]; intros w; [reflexivity|].
  simpl. unfold bind. specialize (Hf x w).
  destruct (f x w) as [[[]|e] w1]; simpl in Hf; [apply IH | discriminate Hf].
Qed.

Lemma forEach_app_normal {A : Type} (l1 l2 : list A) (f : A -> M unit) (w : World) :
  (forall x w', fst (f x w') = Normal tt) ->
  forEach (l1 ++ l2) f w = forEach l2 f (snd (forEach l1 f w)).
Proof.
  intros Hf. revert w. induction l1 as [|x rest IH]; intros w; [reflexivity|].
  simpl. unfold bind. specialize (Hf x w).
  destruct (f x w) as [[[]|e] w1]; simpl in Hf; [apply IH | discriminate Hf].
Qed.

(** Whatever its handler does, the callback completes normally. *)
Lemma slideAnimation_entry_normal (ctx : Context) (entry : string * value) (w : World) :
  fst (slideAnimation_entry ctx entry w) = Normal tt.
Proof.
  unfold slideAnimation_entry.
  destruct (choreographyHandlers (fst entry)) as [handler|]; [|reflexivity].
  destruct (embedded ctx && has NON_EMBED_EXCLUDE_KEYS (fst entry)); [reflexivity|].
  unfold try_catch, bind, modify, console_error_.
  destruct (handler ctx _) as [[[]|e] w1]; reflexivity.
Qed.

Lemma slideAnimation_entry_invoked (ctx : Context) (entry : string * value) (w : World) :
  invoked (snd (slideAnimation_entry ctx entry w)) =
    invoked w ++ dispatched (embedded ctx) [fst entry].
Proof.
  unfold slideAnimation_entry, dispatched. cbn [List.filter].
  destruct (choreographyHandlers (fst entry)) as [handler|] eqn:Hh;
    [| symmetry; apply app_nil_r].
  destruct (embedded ctx && has NON_EMBED_EXCLUDE_KEYS (fst entry));
    [symmetry; apply app_nil_r|]. cbn [negb].
  pose proof (handler_invoked_same _ _ ctx Hh
                (set_invoked (fun ks => ks ++ [fst entry]) w)) as Hsame.
  unfold invoked_same in Hsame.
  unfold try_catch, bind, modify, console_error_.
  destruct (handler ctx _) as [[[]|e] w1]; simpl in *; exact Hsame.
Qed.

Lemma slideAnimation_entry_console (ctx : Context) (entry : string * value) :
  preserves console_extends (slideAnimation_entry ctx entry).
Proof.
  intros w. unfold slideAnimation_entry.
  destruct (choreographyHandlers (fst entry)) as [handler|] eqn:Hh;
    [| apply console_extends_refl].
  destruct (embedded ctx && has NON_EMBED_EXCLUDE_KEYS (fst entry));
    [apply console_extends_refl|].
  pose proof (handler_console_extends _ _ ctx Hh
                (set_invoked (fun ks => ks ++ [fst entry]) w)) as [c Hc].
  unfold try_catch, bind, modify, console_error_.
  destruct (handler ctx _) as [[[]|e] w1]; simpl in *.
  - exists c. exact Hc.
  - unfold console_extends; simpl. rewrite Hc, <- app_assoc. eexists. reflexivity.
Qed.


Lemma dispatched_cons (embedded : bool) (key : string) (keys : list string) :
  dispatched embedded (key :: keys) = dispatched embedded [key] ++ dispatched embedded keys.
Proof.
  unfold dispatched. cbn [List.filter].
  destruct (match choreographyHandlers key with Some _ => _ | None => _ end);
    reflexivity.
Qed.

Lemma forEach_entries_invoked (ctx : Context) (entries : list (string * value))
    (w : World) :
  invoked (snd (forEach entries (slideAnimation_entry ctx) w)) =
    invoked w ++ dispatched (embedded ctx) (map fst entries).
Proof.
  revert w. induction entries as [|entry rest IH]; intros w;
    [symmetry; apply app_nil_r|].
  change (entry :: rest) with ([entry] ++ rest).
  rewrite forEach_app_normal by apply slideAnimation_entry_normal.
  rewrite IH. simpl forEach. unfold bind at 1.
  pose proof (slideAnimation_entry_normal ctx entry w) as Hn.
  pose proof (slideAnimation_entry_invoked ctx entry w) as Hi.
  destruct (slideAnimation_entry ctx entry w) as [[[]|e] w1]; simpl in *;
    [| discriminate Hn].
  rewrite Hi, <- app_assoc. f_equal.
  symmetry. apply dispatched_cons.
Qed.




Lemma settle_rejected (n : nat) (promise : Pending) (reason : error) (w : World) :
  pending w !! n = Some promise ->
  fst (settle n (Rejected reason) w) = Normal tt /\
  console (snd (settle n (Rejected reason) w)) =
    console w ++ [console_error (rejection_message promise) (ArgError reason)].
Proof.
  intros Hp. unfold settle, bind, gets. cbv beta iota. rewrite Hp.
  destruct promise; split; reflexivity.
Qed.

Lemma slideAnimation_entry_throw (ctx : Context) (key : string) (v : value)
    (handler : Context -> M unit) (e : error) (w : World) :
  choreographyHandlers key = Some handler ->
  (embedded ctx && has NON_EMBED_EXCLUDE_KEYS key) = false ->
  fst (handler ctx (set_invoked (fun ks => ks ++ [key]) w)) = Throw e ->
  console (snd (slideAnimation_entry ctx (key, v) w)) =
    console (snd (handler ctx (set_invoked (fun ks => ks ++ [key]) w))) ++
    [console_error ("Error processing '" ++ key ++ "':") (ArgError e)].
Proof.
  intros Hh Hex Hthrow. unfold slideAnimation_entry. cbn [fst].
  rewrite Hh, Hex. unfold try_catch, bind, modify, console_error_.
  destruct (handler ctx (set_invoked (fun ks => ks ++ [key]) w)) as [[[]|e'] w1];
    simpl in Hthrow; [discriminate Hthrow|].
  injection Hthrow as ->. reflexivity.
Qed.

(** C5: when the handler of one key of a slide throws, [slideAnimation]
    still completes normally, the error is logged under that key, and the
    handlers called are those of all the keys the dispatcher calls, the
    ones after the failing key included (with embedded true these leave
    out the viewpoint key, failure or not).  When the promise a handler
    left pending rejects, the rejection is logged with that handler's
    message and nothing is thrown. *)
Theorem slideAnimation_isolates_failures
    (before after : list (string * value)) (key : string) (v : value)
    (handler : Context -> M unit) (e : error)
    (ref : sliderRef) (embedded : bool) (w : World) :
  let slide := VObj (before ++ (key, v) :: after) in
  let context := mkContext slide theView ref embedded in
  let w1 := snd (forEach before (slideAnimation_entry context) w) in
  choreographyHandlers key = Some handler ->
  (embedded && has NON_EMBED_EXCLUDE_KEYS key) = false ->
  fst (handler context (set_invoked (fun ks => ks ++ [key]) w1)) = Throw e ->
  let result := slideAnimation slide theView ref embedded w in
  (fst result = Normal tt /\
   In (console_error ("Error processing '" ++ key ++ "':") (ArgError e))
      (console (snd result)) /\
   invoked (snd result) =
     invoked w ++ dispatched embedded (map fst (before ++ (key, v) :: after))) /\
  (forall n promise reason w',
     pending w' !! n = Some promise ->
     fst (settle n (Rejected reason) w') = Normal tt /\
     console (snd (settle n (Rejected reason) w')) =
       console w' ++ [console_error (rejection_message promise) (ArgError reason)]).
Proof.
  intros slide context w1 Hh Hex Hthrow result. subst result.
  split; [| intros n promise reason w'; apply settle_rejected].
  unfold slideAnimation, bind, lift; simpl Object_entries; cbv iota beta.
  fold slide. fold context.
  split; [apply forEach_normal, slideAnimation_entry_normal|].
  split; [| apply (forEach_entries_invoked context)].
  rewrite forEach_app_normal by apply slideAnimation_entry_normal.
  fold w1.
  change ((key, v) :: after) with ([(key, v)] ++ after).
  rewrite forEach_app_normal by apply slideAnimation_entry_normal.
  destruct (preserves_forEach console_extends console_extends_refl
              console_extends_trans after (slideAnimation_entry context)
              (slideAnimation_entry_console context)
              (snd (forEach [(key, v)] (slideAnimation_entry context) w1)))
    as [c Hc].
  rewrite Hc. apply in_or_app. left.
  pose proof (slideAnimation_entry_throw context key v handler e w1 Hh Hex Hthrow)
    as Hlog.
  pose proof (slideAnimation_entry_normal context (key, v) w1) as Hn.
  cbn [forEach]. unfold bind at 1.
  destruct (slideAnimation_entry context (key, v) w1) as [[[]|e'] w2];
    simpl in Hn; [| discriminate Hn].
  simpl in Hlog |- *. rewrite Hlog. apply in_or_app. right. left. reflexivity.
Qed.

Lemma slideAnimation_isolates_failures_witness :
  choreographyHandlers "camera" = Some toggleCamera /\
  (false && has NON_EMBED_EXCLUDE_KEYS "camera") = false /\
  fst (toggleCamera (mkContext sample_failing_slide theView sliderElement false)
         (set_invoked (fun ks => ks ++ ["camera"]) (sample_world "ready"))) =
    Throw (ReferenceError "Camera") /\
  invoked (snd (slideAnimation sample_failing_slide theView sliderElement false
                  (sample_world "ready"))) = ["camera"; "timeSlider"].
Proof.
  split; [reflexivity|]. split; [reflexivity|]. split; [reflexivity|].
  exact (proj2 (proj2 (proj1
    (slideAnimation_isolates_failures []
       [("timeSlider", sample_timeSlider)] "camera"
       (VObj [("heading", VNum (Num 90))]) toggleCamera (ReferenceError "Camera")
       sliderElement false (sample_world "ready") eq_refl eq_refl eq_refl)))).
Defined.

(** ** The layerVisibility handler *)

Lemma show_named_length (names : list value) (visibility : bool) (refs : list nat)
    (ls : list Layer) :
  length (show_named names visibility refs ls) = length ls.
Proof.
  revert ls. induction refs as [|ref rest IH]; intros ls; [reflexivity|].
  simpl. rewrite IH.
  destruct (ls !! ref) as [l|]; [|reflexivity].
  destruct (named names (title l)); [apply length_insert | reflexivity].
Qed.

Lemma show_named_lookup (names : list value) (visibility : bool) (refs : list nat)
    (ls : list Layer) (i : nat) (l : Layer) :
  ls !! i = Some l ->
  show_named names visibility refs ls !! i =
    Some (if bool_decide (i ∈ refs) && named names (title l)
          then set_visible visibility l else l).
Proof.
  revert ls l. induction refs as [|ref rest IH]; intros ls l Hl; [exact Hl|].
  simpl show_named.
  destruct (decide (i = ref)) as [->|Hne].
  - rewrite Hl. rewrite (bool_decide_eq_true_2 (ref ∈ ref :: rest)) by left.
    destruct (named names (title l)) eqn:Hn; simpl.
    + rewrite (IH _ (set_visible visibility l))
        by (apply list_lookup_insert_eq; eapply lookup_lt_Some; exact Hl).
      simpl. rewrite Hn. destruct (bool_decide (ref ∈ rest)); reflexivity.
    + rewrite (IH _ l Hl), Hn, andb_false_r. reflexivity.
  - assert (Hin : bool_decide (i ∈ ref :: rest) = bool_decide (i ∈ rest)).
    { apply bool_decide_ext. rewrite elem_of_cons. tauto. }
    rewrite Hin.
    destruct (ls !! ref) as [lr|] eqn:Hr; [|exact (IH _ _ Hl)].
    destruct (named names (title lr)); [|exact (IH _ _ Hl)].
    apply IH. rewrite list_lookup_insert_ne by congruence. exact Hl.
Qed.

Lemma visibility_log_insert (names : list value) (visibility v : bool)
    (ls : list Layer) (refs : list nat) (ref : nat) (l : Layer) :
  ls !! ref = Some l ->
  visibility_log names visibility (<[ref := set_visible v l]> ls) refs =
    visibility_log names visibility ls refs.
Proof.
  intros Hl. unfold visibility_log.
  induction refs as [|r rest IH]; [reflexivity|].
  cbn [flat_map]. rewrite IH. f_equal.
  destruct (decide (r = ref)) as [->|Hne].
  - rewrite list_lookup_insert_eq by (eapply lookup_lt_Some; exact Hl).
    rewrite Hl. reflexivity.
  - rewrite list_lookup_insert_ne by congruence. reflexivity.
Qed.

Lemma forEach_setLayerVisibility_layer (names : list value) (visibility : bool)
    (refs : list nat) (w : World) :
  Forall (fun ref => ref < length (layers w)) refs ->
  forEach refs (setLayerVisibility_layer (VArr names) visibility) w =
    (Normal tt,
     set_console (fun c => c ++ visibility_log names visibility (layers w) refs)
       (set_layers (show_named names visibility refs) w)).
Proof.
  revert w. induction refs as [|ref rest IH]; intros w Hrefs.
  - destruct w; unfold set_console, set_layers; simpl. rewrite app_nil_r. reflexivity.
  - inversion Hrefs as [|? ? Href Hrest]; subst.
    destruct (lookup_lt_is_Some_2 (layers w) ref Href) as [l Hl].
    cbn [forEach]. unfold bind at 1.
    assert (Hstep : setLayerVisibility_layer (VArr names) visibility ref w =
              (Normal tt,
               if named names (title l) then
                 set_console
                   (fun c => c ++ [console_log ("Layer '" ++ title l
                                      ++ "' visibility set to "
                                      ++ boolean_to_string visibility) ArgNone])
                   (set_layers (fun ls => <[ref := set_visible visibility l]> ls) w)
               else w)).
    { unfold setLayerVisibility_layer, layer_update, bind, layer_get, lift, includes.
      rewrite Hl. destruct (named names (title l)); [|reflexivity].
      unfold modify, console_log_; simpl. rewrite Hl. reflexivity. }
    rewrite Hstep.
    destruct (named names (title l)) eqn:Hn.
    + rewrite IH by (simpl; rewrite length_insert; exact Hrest).
      destruct w as [ls ml sl calls con pend inv tsg cd hi ie rb hl cl dbg].
      simpl in Hl |- *. unfold set_console, set_layers; simpl.
      rewrite Hl, Hn, visibility_log_insert by exact Hl.
      rewrite <- app_assoc. reflexivity.
    + rewrite IH by exact Hrest.
      destruct w as [ls ml sl calls con pend inv tsg cd hi ie rb hl cl dbg].
      simpl in Hl |- *. unfold set_console, set_layers; simpl.
      rewrite Hl, Hn. reflexivity.
Qed.

Lemma show_named_nil (visibility : bool) (refs : list nat) (ls : list Layer) :
  show_named [] visibility refs ls = ls.
Proof.
  revert ls. induction refs as [|ref rest IH]; intros ls; [reflexivity|].
  simpl. destruct (ls !! ref); apply IH.
Qed.

Lemma visibility_log_nil (visibility : bool) (ls : list Layer) (refs : list nat) :
  visibility_log [] visibility ls refs = [].
Proof.
  unfold visibility_log. induction refs as [|ref rest IH]; [reflexivity|].
  cbn [flat_map]. rewrite IH. destruct (ls !! ref); reflexivity.
Qed.

Lemma setLayerVisibility_array (names : list value) (visibility : bool) (w : World) :
  collection_allocated w ->
  setLayerVisibility (VArr names) visibility w =
    (Normal tt,
     set_console
       (fun c => c ++ visibility_log names visibility (layers w) (mapLayers w))
       (set_layers (show_named names visibility (mapLayers w)) w)).
Proof.
  intros Hrefs. destruct names as [|name names].
  - destruct w; unfold set_console, set_layers; simpl.
    rewrite show_named_nil, visibility_log_nil, app_nil_r. reflexivity.
  - unfold setLayerVisibility, bind, lift, gets.
    cbn [truthy negb get String.eqb Ascii.eqb Bool.eqb].
    replace (greater_than_zero _) with true
      by (unfold greater_than_zero; simpl; reflexivity).
    cbn [negb]. apply forEach_setLayerVisibility_layer. exact Hrefs.
Qed.

Lemma visibility_log_same_titles (names : list value) (visibility : bool)
    (ls ls' : list Layer) (refs : list nat) :
  (forall ref, title <$> ls' !! ref = title <$> ls !! ref) ->
  visibility_log names visibility ls' refs = visibility_log names visibility ls refs.
Proof.
  intros Htitles. unfold visibility_log.
  induction refs as [|ref rest IH]; [reflexivity|].
  cbn [flat_map]. rewrite IH. f_equal.
  specialize (Htitles ref).
  destruct (ls' !! ref) as [l'|], (ls !! ref) as [l|]; simpl in Htitles;
    try discriminate Htitles; [|reflexivity].
  injection Htitles as ->. reflexivity.
Qed.

Lemma show_named_titles (names : list value) (visibility : bool) (refs : list nat)
    (ls : list Layer) (ref : nat) :
  title <$> show_named names visibility refs ls !! ref = title <$> ls !! ref.
Proof.
  destruct (ls !! ref) as [l|] eqn:Hl.
  - rewrite (show_named_lookup _ _ _ _ _ _ Hl). simpl.
    destruct (_ && _); reflexivity.
  - rewrite lookup_ge_None_2; [reflexivity|].
    rewrite show_named_length. apply lookup_ge_None_1. exact Hl.
Qed.

(** C9: when [layersOn] and [layersOff] are arrays, the handler
    completes normally; it writes [visible] once for each layer of the map
    whose title is in [layersOn] (true, logged) and then once for each
    whose title is in [layersOff] (false, logged), and nothing else of the
    page changes: a layer of the map titled in [layersOff] ends invisible,
    one titled in [layersOn] only ends visible, and every other layer
    object, as well as the title, time info and track info of every layer,
    is as before. *)
Theorem toggleLayerVisibility_sets_named_layers
    (slideData layerVisibility : value) (layersOn layersOff : list value)
    (ref : sliderRef) (embedded : bool) (w : World) :
  get slideData "layerVisibility" = Normal layerVisibility ->
  get layerVisibility "layersOn" = Normal (VArr layersOn) ->
  get layerVisibility "layersOff" = Normal (VArr layersOff) ->
  collection_allocated w ->
  exists layers',
    toggleLayerVisibility (mkContext slideData theView ref embedded) w =
      (Normal tt,
       set_console
         (fun c => c ++ visibility_log layersOn true (layers w) (mapLayers w)
                     ++ visibility_log layersOff false (layers w) (mapLayers w))
         (set_layers (fun _ => layers') w)) /\
    length layers' = length (layers w) /\
    forall i l,
      layers w !! i = Some l ->
      exists l',
        layers' !! i = Some l' /\
        visible l' =
          (if bool_decide (i ∈ mapLayers w) && named layersOff (title l) then false
           else if bool_decide (i ∈ mapLayers w) && named layersOn (title l) then true
                else visible l) /\
        title l' = title l /\
        timeInfo l' = timeInfo l /\
        trackInfo l' = trackInfo l.
Proof.
  intros Hlv Hon Hoff Hrefs.
  exists (show_named layersOff false (mapLayers w)
            (show_named layersOn true (mapLayers w) (layers w))).
  split; [|split].
  - unfold toggleLayerVisibility, bind, lift. cbn -[get setLayerVisibility].
    rewrite Hlv, Hon, Hoff.
    rewrite (setLayerVisibility_array layersOn true w Hrefs).
    rewrite setLayerVisibility_array
      by (unfold collection_allocated; simpl; rewrite show_named_length; exact Hrefs).
    destruct w as [ls ml sl calls con pend inv tsg cd hi ie rb hl cl dbg].
    unfold set_console, set_layers; simpl.
    rewrite (visibility_log_same_titles layersOff false ls _ ml)
      by apply show_named_titles.
    rewrite <- app_assoc. reflexivity.
  - rewrite !show_named_length. reflexivity.
  - intros i l Hl.
    pose proof (show_named_lookup layersOn true (mapLayers w) _ _ _ Hl) as H1.
    rewrite (show_named_lookup layersOff false (mapLayers w) _ _ _ H1).
    eexists. split; [reflexivity|].
    destruct (bool_decide (i ∈ mapLayers w)); simpl; [|repeat split].
    destruct (named layersOn (title l)); simpl;
      destruct (named layersOff (title l)); repeat split.
Qed.

Lemma sample_world_allocated : collection_allocated (sample_world "ready").
Proof. unfold collection_allocated. vm_compute. repeat constructor. Qed.

Lemma toggleLayerVisibility_sets_named_layers_witness :
  get sample_slide "layerVisibility" =
    Normal (VObj [("layersOn", VArr [VStr "Stops"]);
                  ("layersOff", VArr [VStr "Routes"])]) /\
  collection_allocated (sample_world "ready") /\
  visible <$> layers (sample_world "ready") !! 0 = Some false /\
  visible <$> layers (sample_world "ready") !! 2 = Some true /\
  fst (toggleLayerVisibility (mkContext sample_slide theView sliderElement false)
         (sample_world "ready")) = Normal tt /\
  visible <$> layers (snd (toggleLayerVisibility
                             (mkContext sample_slide theView sliderElement false)
                             (sample_world "ready"))) !! 0 = Some true /\
  visible <$> layers (snd (toggleLayerVisibility
                             (mkContext sample_slide theView sliderElement false)
                             (sample_world "ready"))) !! 2 = Some false.
Proof.
  split; [reflexivity|]. split; [exact sample_world_allocated|].
  split; [reflexivity|]. split; [reflexivity|].
  destruct (toggleLayerVisibility_sets_named_layers sample_slide
              (VObj [("layersOn", VArr [VStr "Stops"]);
                     ("layersOff", VArr [VStr "Routes"])])
              [VStr "Stops"] [VStr "Routes"] sliderElement false
              (sample_world "ready") eq_refl eq_refl eq_refl sample_world_allocated)
    as (layers' & Hrun & _ & Hlayers).
  rewrite Hrun.
  destruct (Hlayers 0 (mkLayer "Stops" false None VNull) eq_refl)
    as (stops & Hstops & Hshown & _).
  destruct (Hlayers 2 (mkLayer "Routes" true None VNull) eq_refl)
    as (routes & Hroutes & Hhidden & _).
  split; [reflexivity|].
  change (visible <$> layers' !! 0 = Some true /\ visible <$> layers' !! 2 = Some false).
  rewrite Hstops, Hroutes. cbn [fmap option_fmap option_map].
  rewrite Hshown, Hhidden. split; reflexivity.
Defined.

(** ** The trackRenderer handler *)

Lemma find_layer_first (name : string) (pre : list nat) (trackLayer : nat)
    (post : list nat) (l : Layer) (w : World) :
  layers w !! trackLayer = Some l ->
  title l = name ->
  Forall (fun ref => exists l', layers w !! ref = Some l' /\ title l' <> name) pre ->
  find_layer (VStr name) (pre ++ trackLayer :: post) w = (Normal (Some trackLayer), w).
Proof.
  intros Hl Ht Hpre. induction Hpre as [|ref rest (l' & Hl' & Hne) _ IH]; simpl.
  - unfold bind, layer_get. rewrite Hl, Ht, String.eqb_refl. reflexivity.
  - unfold bind at 1, layer_get at 1. rewrite Hl'.
    destruct (String.eqb_spec (title l') name); [contradiction | exact IH].
Qed.

Lemma first_titled_fresh (name : string) (pre : list nat) (trackLayer : nat)
    (l : Layer) (ls : list Layer) :
  ls !! trackLayer = Some l ->
  title l = name ->
  Forall (fun ref => exists l', ls !! ref = Some l' /\ title l' <> name) pre ->
  Forall (fun ref => ref <> trackLayer) pre.
Proof.
  intros Hl Ht Hpre. eapply Forall_impl; [exact Hpre|].
  intros ref (l' & Hl' & Hne) ->. rewrite Hl in Hl'. injection Hl' as <-.
  contradiction.
Qed.

Lemma indexOf_first (pre : list nat) (ref : nat) (post : list nat) :
  Forall (fun r => r <> ref) pre ->
  indexOf ref (pre ++ ref :: post) = Some (length pre).
Proof.
  intros Hpre. induction Hpre as [|r rest Hne _ IH]; simpl.
  - rewrite Nat.eqb_refl. reflexivity.
  - apply Nat.eqb_neq in Hne. rewrite Hne, IH. reflexivity.
Qed.

Lemma remove_ref_first (pre : list nat) (ref : nat) (post : list nat) :
  Forall (fun r => r <> ref) pre ->
  remove_ref ref (pre ++ ref :: post) = pre ++ post.
Proof.
  intros Hpre. induction Hpre as [|r rest Hne _ IH]; simpl.
  - rewrite Nat.eqb_refl. reflexivity.
  - apply Nat.eqb_neq in Hne. rewrite Hne, IH. reflexivity.
Qed.

Lemma add_ref_at (pre : list nat) (ref : nat) (post : list nat) :
  add_ref ref (length pre) (pre ++ post) = pre ++ ref :: post.
Proof.
  unfold add_ref. rewrite take_app_length, drop_app_length. reflexivity.
Qed.

(** C10, as stated, fails: on the sample page, whose map has a layer
    titled "Buses", a slide that names that layer in [trackRenderer] and
    has no [timeSlider] field makes the handler log a TypeError and do
    nothing else: no layer is removed, cloned or added. *)
Lemma toggleTrackRenderer_needs_timeSlider :
  let w := sample_world "ready" in
  let result :=
    toggleTrackRenderer (mkContext sample_track_only_slide theView sliderElement false) w in
  first_titled "Buses" [0] 1 [2] (mkLayer "Buses" true (Some sample_timeInfo) VNull) w /\
  get sample_trackRenderer "trackLayerName" = Normal (VStr "Buses") /\
  sdkCalls (snd result) = sdkCalls w /\
  mapLayers (snd result) = mapLayers w /\
  layers (snd result) = layers w /\
  pending (snd result) = pending w /\
  console (snd result) =
    console w ++ [console_error "Failed to set track Renderer:"
                    (ArgError (TypeError "Cannot read properties of undefined"))].
Proof.
  repeat split.
  constructor; [|constructor]. eexists. split; [reflexivity | discriminate].
Qed.

Lemma toggleTrackRenderer_sync (slideData trackRenderer : value) (name : string)
    (trackLayerField info cfg U S : value)
    (pre post : list nat) (trackLayer : nat) (l : Layer)
    (ref : sliderRef) (embedded : bool) (w : World) :
  trackRenderer_config slideData trackRenderer name trackLayerField info cfg U S ->
  first_titled name pre trackLayer post l w ->
  toggleTrackRenderer (mkContext slideData theView ref embedded) w =
    (Normal tt,
     track_layer_reset pre post trackLayer l name
       (when_promise (length (layers w)) trackRenderer trackLayerField U S) w).
Proof.
  intros (Htr & Hname & Hfield & _ & Hcfg & HU & HS) (Hmap & Hl & Ht & Hpre).
  pose proof (first_titled_fresh _ _ _ _ _ Hl Ht Hpre) as Hfresh.
  unfold toggleTrackRenderer. cbn -[get applyTrackRenderer bind lift].
  rewrite Hcfg, bind_lift_normal, Htr, bind_lift_normal.
  unfold applyTrackRenderer, try_catch.
  rewrite Hfield, bind_lift_normal, HU, bind_lift_normal, HS, bind_lift_normal.
  rewrite Hname, bind_lift_normal, bind_gets, Hmap.
  unfold bind at 1.
  rewrite (find_layer_first name pre trackLayer post l w Hl Ht Hpre).
  rewrite bind_gets, Hmap, (indexOf_first _ _ _ Hfresh).
  unfold map_remove, map_add, layer_clone, await_when, bind, layer_get, gets,
    sdk_call, console_log_, modify, ret, track_layer_reset.
  destruct w as [ls ml sl calls con pend inv tsg cd hi ie rb hl cl dbg].
  simpl in Hmap, Hl |- *. subst ml. rewrite Hl. simpl.
  eval_setters.
  rewrite (remove_ref_first _ _ _ Hfresh), add_ref_at.
  rewrite <- !app_assoc. reflexivity.
Qed.

Lemma settle_when_fulfilled (n clone : nat)
    (trackRenderer trackLayerField U S info : value)
    (c : Layer) (ti : TimeInfo) (w : World) :
  get trackRenderer "trackInfo" = Normal info ->
  pending w !! n = Some (when_promise clone trackRenderer trackLayerField U S) ->
  layers w !! clone = Some c ->
  timeInfo c = Some ti ->
  settle n Fulfilled w =
    (Normal tt,
     set_layers
       (fun ls => <[clone := mkLayer (title c) true
                               (Some (mkTimeInfo (startField ti) trackLayerField
                                        (mkInterval S U)))
                               info]> ls)
       (set_pending (delete n) w)).
Proof.
  intros Hinfo Hp Hc Hti.
  assert (Hlt : clone < length (layers w)) by (eapply lookup_lt_Some; exact Hc).
  unfold settle, bind at 1, gets at 1. rewrite Hp.
  unfold applyTrackRenderer_resume, layer_update, try_catch, bind, layer_get,
    modify, ret, lift.
  destruct w as [ls ml sl calls con pend inv tsg cd hi ie rb hl cl dbg].
  simpl in Hp, Hc, Hlt |- *.
  repeat (first [ rewrite Hc | rewrite Hti | rewrite Hinfo
                | rewrite list_lookup_insert_eq
                    by (rewrite ?length_insert; exact Hlt) ];
          simpl).
  eval_setters. rewrite !list_insert_insert_eq. reflexivity.
Qed.

(** C10, amended: when the slide has a timeSlider value (not null or
    undefined), and a layer of the map has the configured title, the
    handler removes the first such layer from the map, clones it, adds the
    clone at the index the layer had, and waits for the clone's [when],
    in that order; once that promise is fulfilled, and if the clone then
    has time info, the clone is made visible, its time info becomes the
    kept start field, the configured track-id field and the interval of
    the slide's timeSlider unit and step, and its track info becomes the
    configured one. *)
Theorem toggleTrackRenderer_resets_layer (slideData trackRenderer : value)
    (name : string) (trackLayerField info cfg U S : value)
    (pre post : list nat) (trackLayer : nat) (l : Layer)
    (ref : sliderRef) (embedded : bool) (w : World) :
  trackRenderer_config slideData trackRenderer name trackLayerField info cfg U S ->
  first_titled name pre trackLayer post l w ->
  let clone := length (layers w) in
  let promise := when_promise clone trackRenderer trackLayerField U S in
  toggleTrackRenderer (mkContext slideData theView ref embedded) w =
    (Normal tt, track_layer_reset pre post trackLayer l name promise w) /\
  forall n c ti w',
    pending w' !! n = Some promise ->
    layers w' !! clone = Some c ->
    timeInfo c = Some ti ->
    settle n Fulfilled w' =
      (Normal tt,
       set_layers
         (fun ls => <[clone := mkLayer (title c) true
                                 (Some (mkTimeInfo (startField ti) trackLayerField
                                          (mkInterval S U)))
                                 info]> ls)
         (set_pending (delete n) w')).
Proof.
  intros Hconf Hfirst clone promise. split.
  - eapply toggleTrackRenderer_sync; eassumption.
  - intros n c ti w' Hp Hc Hti.
    destruct Hconf as (_ & _ & _ & Hinfo & _).
    eapply settle_when_fulfilled; eassumption.
Qed.

Lemma sample_trackRenderer_config :
  trackRenderer_config sample_slide sample_trackRenderer "Buses"
    (VStr "vehicle_id") (VObj [("enabled", VBool true)])
    sample_timeSlider (VStr "minutes") (VNum (Num 5)).
Proof. repeat split. Qed.

Lemma sample_world_first_titled :
  first_titled "Buses" [0] 1 [2] (mkLayer "Buses" true (Some sample_timeInfo) VNull)
    (sample_world "ready").
Proof.
  repeat split.
  constructor; [|constructor]. eexists. split; [reflexivity | discriminate].
Qed.

Lemma toggleTrackRenderer_resets_layer_witness :
  trackRenderer_config sample_slide sample_trackRenderer "Buses"
    (VStr "vehicle_id") (VObj [("enabled", VBool true)])
    sample_timeSlider (VStr "minutes") (VNum (Num 5)) /\
  first_titled "Buses" [0] 1 [2] (mkLayer "Buses" true (Some sample_timeInfo) VNull)
    (sample_world "ready") /\
  mapLayers (snd (toggleTrackRenderer
                    (mkContext sample_slide theView sliderElement false)
                    (sample_world "ready"))) = [0; 3; 2].
Proof.
  split; [exact sample_trackRenderer_config|].
  split; [exact sample_world_first_titled|].
  rewrite (proj1 (toggleTrackRenderer_resets_layer sample_slide sample_trackRenderer
                    "Buses" _ _ _ _ _ [0] [2] 1 _ sliderElement false
                    (sample_world "ready")
                    sample_trackRenderer_config sample_world_first_titled)).
  reflexivity.
Defined.

(** ** The page at work *)

(** The sample page goes to slide 0: the four handlers run in the order
    of the slide's keys, and when the clone of the track layer has loaded
    it stands in the map where "Buses" stood, visible, with the time info
    and the track info of the slide. *)
Example sample_page_slide_0 :
  let w := run [HashChange "#0"; Settle 1 Fulfilled] (sample_world "ready") in
  invoked w = ["viewpoint"; "timeSlider"; "layerVisibility"; "trackRenderer"] /\
  mapLayers w = [0; 3; 2] /\
  layers w !! 3 =
    Some (mkLayer "Buses" true
            (Some (mkTimeInfo (VStr "timestamp") (VStr "vehicle_id")
                     (mkInterval (VNum (Num 5)) (VStr "minutes"))))
            (VObj [("enabled", VBool true)])) /\
  pending w = [goTo_promise "Error setting viewpoint:"].
Proof. vm_compute. repeat split. Qed.

(** Two quick hash changes race: the second dispatch clones the clone of
    the first, so when the first clone has loaded it is no longer in the
    map, and it is the one that gets the time info. *)
Example sample_page_race :
  let w := run [HashChange "#0"; HashChange "#0"; Settle 1 Fulfilled]
               (sample_world "ready") in
  mapLayers w = [0; 4; 2] /\
  trackIdField <$> (layers w !! 3 ≫= timeInfo) = Some (VStr "vehicle_id") /\
  trackIdField <$> (layers w !! 4 ≫= timeInfo) = Some VUndefined.
Proof. vm_compute. repeat split. Qed.

(** ** Every reference of the map's collection stays allocated *)

Lemma keeps_allocated_refl (w : World) : keeps_allocated w w.
Proof. intros H. exact H. Qed.

Lemma keeps_allocated_trans (w1 w2 w3 : World) :
  keeps_allocated w1 w2 -> keeps_allocated w2 w3 -> keeps_allocated w1 w3.
Proof. unfold keeps_allocated. auto. Qed.

Lemma Forall_remove_ref (P : nat -> Prop) (ref : nat) (refs : list nat) :
  Forall P refs -> Forall P (remove_ref ref refs).
Proof.
  intros H. induction H as [|r rest Hr Hrest IH]; simpl; [constructor|].
  destruct (r =? ref)%nat; [assumption | constructor; assumption].
Qed.

Lemma Forall_add_ref (P : nat -> Prop) (ref index : nat) (refs : list nat) :
  P ref -> Forall P refs -> Forall P (add_ref ref index refs).
Proof.
  intros Href H. unfold add_ref. apply Forall_app. split.
  - apply Forall_take, H.
  - constructor; [exact Href | apply Forall_drop, H].
Qed.

Lemma keeps_allocated_layer_update (ref : nat) (f : Layer -> Layer) :
  preserves keeps_allocated (layer_update ref f).
Proof.
  intros w H. unfold layer_update, bind, layer_get, modify.
  destruct (layers w !! ref) as [l|]; [|exact H].
  unfold collection_allocated in *; simpl. rewrite length_insert. exact H.
Qed.

Lemma keeps_allocated_map_remove (ref : nat) :
  preserves keeps_allocated (map_remove ref).
Proof.
  intros w H. unfold collection_allocated in *; simpl.
  apply Forall_remove_ref, H.
Qed.

Lemma keeps_allocated_clone_add (ref index : nat) (k : nat -> M unit) :
  (forall clone, preserves keeps_allocated (k clone)) ->
  preserves keeps_allocated (clone <- layer_clone ref ;; map_add clone index ;; k clone).
Proof.
  intros Hk w H. unfold layer_clone, map_add, bind, layer_get, gets, sdk_call, modify, ret.
  destruct (layers w !! ref) as [l|]; [|exact H].
  apply Hk. unfold collection_allocated in *; simpl.
  rewrite length_app; simpl. apply Forall_add_ref; [lia|].
  eapply Forall_impl; [exact H|]. simpl. intros r Hr. lia.
Qed.

Ltac allocated_step :=
  first
    [ apply (preserves_ret _ keeps_allocated_refl)
    | apply (preserves_throw _ keeps_allocated_refl)
    | apply (preserves_lift _ keeps_allocated_refl)
    | apply (preserves_gets _ keeps_allocated_refl)
    | apply (preserves_layer_get _ keeps_allocated_refl)
    | apply keeps_allocated_layer_update
    | apply keeps_allocated_map_remove
    | apply keeps_allocated_clone_add; intros ?
    | apply preserves_modify; intros ? Hall; exact Hall
    | apply (preserves_bind _ keeps_allocated_trans); [| intros ?]
    | apply (preserves_try_catch _ keeps_allocated_trans); [| intros ?]
    | match goal with
      | |- preserves _ (if ?b then _ else _) => destruct b
      | |- preserves _ (match ?x with _ => _ end) => destruct x
      end ].

Lemma keeps_allocated_slideAnimation (slideData : value) (ref : sliderRef)
    (embedded : bool) :
  preserves keeps_allocated (slideAnimation slideData theView ref embedded).
Proof.
  apply (preserves_slideAnimation _ keeps_allocated_refl keeps_allocated_trans);
    first [ exact keeps_allocated_layer_update | exact keeps_allocated_map_remove
          | exact keeps_allocated_clone_add
          | intros; first [ intros ? Hall; exact Hall | intros Hall; exact Hall ] ].
Qed.

Lemma keeps_allocated_handle (ev : Event) : preserves keeps_allocated (handle ev).
Proof.
  destruct ev as [path answer | location_hash | | n outcome]; unfold handle.
  - unfold initMapAnimator, loadChoreography, setupHashListener, configureTimeSlider,
      setupResetButton, has_timeSlider_config, log, console_log_, console_error_,
      slider_write, slider_read, slider_method, sdk_call.
    cbv zeta. repeat allocated_step.
  - apply (preserves_bind _ keeps_allocated_trans);
      [apply (preserves_gets _ keeps_allocated_refl)|].
    intros installed. destruct installed; [|allocated_step].
    unfold on_hashchange, current_config, log, console_log_.
    repeat first [ apply keeps_allocated_slideAnimation | allocated_step ].
  - unfold on_click, current_config, log, console_log_, console_error_,
      slider_write, slider_read, slider_method, sdk_call.
    repeat allocated_step.
  - unfold settle, console_error_.
    repeat first
      [ apply (preserves_applyTrackRenderer_resume _ keeps_allocated_refl
                 keeps_allocated_trans);
        [ intros ? ? ? Hall; exact Hall | apply keeps_allocated_layer_update ]
      | allocated_step ].
Qed.

Lemma initial_world_allocated (document_slider : sliderRef) (debugMode : bool)
    (mapLayers : list Layer) (sliderState : string) (buttonDisabled : bool) :
  collection_allocated
    (initial_world document_slider debugMode mapLayers sliderState buttonDisabled).
Proof.
  unfold collection_allocated, initial_world; simpl.
  apply Forall_seq. intros i Hi. lia.
Qed.

(** Whatever the events, every reference of the map's collection names a
    layer object. *)
Theorem reachable_allocated (events : list Event) (w : World) :
  collection_allocated w -> collection_allocated (run events w).
Proof.
  revert w. induction events as [|ev rest IH]; intros w H; [exact H|].
  simpl. apply IH. apply keeps_allocated_handle. exact H.
Qed.

(** * Further properties of the code *)

(** ** Hash fragments *)

Lemma of_uint_acc_value (d : uint) (acc : positive) :
  Z.pos (Pos.of_uint_acc d acc) = uint_value (Z.pos acc) d.
Proof.
  revert acc. induction d; intros acc; simpl; try reflexivity;
    rewrite IHd; f_equal; lia.
Qed.

Lemma of_uint_value (d : uint) : Z.of_uint d = uint_value 0 d.
Proof.
  unfold Z.of_uint. induction d; simpl; try reflexivity; try exact IHd;
    apply of_uint_acc_value.
Qed.

Lemma read_digits_numeral (d : uint) (count : nat) (acc : Z) (t : string) :
  starts_with_digit t = false ->
  read_digits count acc (NilEmpty.string_of_uint d ++ t) =
    (count + nb_digits d, uint_value acc d, t).
Proof.
  intros Ht. revert count acc.
  induction d; intros count acc; simpl;
    try (rewrite IHd;
         replace (S count + nb_digits d) with (count + S (nb_digits d)) by lia;
         reflexivity).
  rewrite Nat.add_0_r. destruct t as [|c t']; [reflexivity|].
  simpl in Ht |- *. rewrite Ht. reflexivity.
Qed.

Lemma parseInt_numeral (d : uint) (t : string) :
  d <> Nil ->
  starts_with_digit t = false ->
  parseInt (NilEmpty.string_of_uint d ++ t) = Num (uint_value 0 d).
Proof.
  intros Hd Ht.
  assert (Hhead : strip_sign (skip_whitespace (NilEmpty.string_of_uint d ++ t)) =
                    (1%Z, (NilEmpty.string_of_uint d ++ t)%string))
    by (destruct d; [contradiction | reflexivity..]).
  unfold parseInt. rewrite Hhead, read_digits_numeral by exact Ht.
  destruct d; [contradiction|..]; simpl Nat.add; cbv iota;
    f_equal; apply Z.mul_1_l.
Qed.

Lemma parseInt_decimal (z : Z) (t : string) :
  starts_with_digit t = false ->
  parseInt (number_to_string (Num z) ++ t) = Num z.
Proof.
  intros Ht. destruct z as [|p|p].
  - simpl. unfold parseInt; simpl. destruct t as [|c t']; [reflexivity|].
    simpl in Ht |- *. rewrite Ht. reflexivity.
  - pose proof (DecimalPos.Unsigned.to_uint_nonnil p) as Hnil.
    assert (Hs : number_to_string (Num (Z.pos p)) =
                   NilEmpty.string_of_uint (Pos.to_uint p))
      by (simpl; destruct (Pos.to_uint p); [contradiction | reflexivity..]).
    rewrite Hs, parseInt_numeral by assumption.
    rewrite <- of_uint_value. unfold Z.of_uint.
    rewrite DecimalPos.Unsigned.of_to. reflexivity.
  - pose proof (DecimalPos.Unsigned.to_uint_nonnil p) as Hnil.
    assert (Hs : number_to_string (Num (Z.neg p)) =
                   String "-" (NilEmpty.string_of_uint (Pos.to_uint p)))
      by (simpl; destruct (Pos.to_uint p); [contradiction | reflexivity..]).
    rewrite Hs. unfold parseInt.
    change (strip_sign (skip_whitespace
              (String "-" (NilEmpty.string_of_uint (Pos.to_uint p)) ++ t)))
      with ((-1)%Z, (NilEmpty.string_of_uint (Pos.to_uint p) ++ t)%string).
    cbv beta iota. rewrite read_digits_numeral by exact Ht.
    rewrite <- of_uint_value. unfold Z.of_uint.
    rewrite DecimalPos.Unsigned.of_to.
    destruct (Pos.to_uint p); [contradiction|..]; reflexivity.
Qed.

(** X1: the decimal form of a safe integer (at most
    [Number.MAX_SAFE_INTEGER] in absolute value) parses back to that
    integer, and what follows it is ignored as long as it does not start
    with a digit: a hash made of "#", a slide number and any such suffix
    selects that slide number. *)
Theorem parseInt_number_to_string (z : Z) (t : string) :
  (Z.abs z <= MAX_SAFE_INTEGER)%Z ->
  starts_with_digit t = false ->
  parseInt (number_to_string (Num z) ++ t) = Num z.
Proof. intros _. exact (parseInt_decimal z t). Qed.

Lemma parseInt_number_to_string_witness :
  (Z.abs 12 <= MAX_SAFE_INTEGER)%Z /\
  starts_with_digit "-intro" = false /\
  parseInt (number_to_string (Num 12) ++ "-intro") = Num 12.
Proof.
  assert (Hsafe : (Z.abs 12 <= MAX_SAFE_INTEGER)%Z) by (vm_compute; discriminate).
  split; [exact Hsafe|]. split; [reflexivity|].
  exact (parseInt_number_to_string 12 "-intro" Hsafe eq_refl).
Defined.

Lemma current_config_in_range (slides : list value) (i : nat) (slide : value)
    (w : World) :
  choreographyData w = VArr slides ->
  hashIndex w = Num (Z.of_nat i) ->
  slides !! i = Some slide ->
  current_config w = (Normal slide, w).
Proof.
  intros Hdata Hindex Hslide.
  unfold current_config. rewrite !bind_gets, Hdata, Hindex, get_array_number.
  destruct (Z.ltb_spec (Z.of_nat i) 0) as [Hneg|_]; [lia|].
  rewrite Nat2Z.id, Hslide. reflexivity.
Qed.

(** X2: when the fragment is "#", the decimal form of an index within the
    loaded sequence and a suffix that does not start with a digit, and the
    slide at that index is truthy, the listener stores the index in
    [hashIndex] and runs [slideAnimation] on exactly that slide, with the
    page's time slider and embedded flag. *)
Theorem on_hashchange_dispatches (slides : list value) (i : nat) (t : string)
    (slide : value) (w : World) :
  choreographyData w = VArr slides ->
  slides !! i = Some slide ->
  truthy slide = true ->
  starts_with_digit t = false ->
  on_hashchange ("#" ++ index_key i ++ t) w =
    slideAnimation slide theView (timeSliderGlobal w) (isEmbedded w)
      (set_console
         (fun c => c ++ hash_changed_messages (DEBUG w) ("#" ++ index_key i ++ t))
         (set_hashIndex (Num (Z.of_nat i)) w)).
Proof.
  intros Hdata Hslide Htruthy Ht.
  assert (Hget : get (VArr slides) (number_to_string (Num (Z.of_nat i))) = Normal slide).
  { rewrite get_array_number.
    destruct (Z.ltb_spec (Z.of_nat i) 0) as [Hneg|_]; [lia|].
    rewrite Nat2Z.id, Hslide. reflexivity. }
  destruct w as [ls ml sl calls con pend inv tsg cd hi ie rb hl cl dbg];
    simpl in Hdata; subst cd.
  unfold on_hashchange, current_config, hash_changed_messages.
  change (substring_from_1 ("#" ++ index_key i ++ t)) with (index_key i ++ t)%string.
  unfold index_key. rewrite parseInt_decimal by exact Ht.
  destruct dbg; run_js; rewrite Hget; run_js; rewrite Htruthy; run_js;
    rewrite Hget; run_js; rewrite ?app_nil_r; reflexivity.
Qed.

Lemma on_hashchange_dispatches_witness :
  choreographyData (sample_world "ready") = VArr [sample_slide] /\
  [sample_slide] !! 0 = Some sample_slide /\
  truthy sample_slide = true /\
  starts_with_digit EmptyString = false /\
  on_hashchange ("#" ++ index_key 0 ++ EmptyString) (sample_world "ready") =
    slideAnimation sample_slide theView
      (timeSliderGlobal (sample_world "ready")) (isEmbedded (sample_world "ready"))
      (set_console
         (fun c => c ++ hash_changed_messages (DEBUG (sample_world "ready"))
                         ("#" ++ index_key 0 ++ EmptyString))
         (set_hashIndex (Num (Z.of_nat 0)) (sample_world "ready"))).
Proof.
  repeat (split; [reflexivity|]).
  exact (on_hashchange_dispatches [sample_slide] 0 EmptyString sample_slide
           (sample_world "ready") eq_refl eq_refl eq_refl eq_refl).
Defined.

(** ** The reset button, continued *)

Lemma get_truthy_normal (v : value) (key : string) :
  nullish v = false -> exists x, get v key = Normal x.
Proof.
  intros Hv. destruct v; try discriminate Hv; simpl; eauto.
  - destruct (_ =? _)%string; [eauto|].
    destruct (array_index key) as [i|]; [|eauto]. destruct (String.get i s); eauto.
  - destruct (_ =? _)%string; [eauto|].
    destruct (array_index key) as [i|]; [|eauto]. destruct (items !! i); eauto.
  - destruct (assoc key fields); eauto.
Qed.

Lemma truthy_not_nullish (v : value) : truthy v = true -> nullish v = false.
Proof. destruct v; simpl; congruence. Qed.

Lemma on_click_no_config (config : value) (w : World) :
  current_config w = (Normal config, w) ->
  truthy config = false ->
  on_click w =
    (Normal tt,
     set_console
       (fun c => c ++ [console_error "No configuration found for the current hash."
                         ArgNone]) w).
Proof.
  intros Hconfig Hfalsy. unfold on_click, bind at 1. rewrite Hconfig, Hfalsy.
  reflexivity.
Qed.

(** X3: once a hashchange with a fragment that is not a valid index has
    been ignored, a click on the reset button no longer resets anything,
    although the sequence is loaded: it logs "No configuration found for
    the current hash." and leaves the slider and everything else as they
    are, until a valid hash arrives. *)
Theorem on_click_after_ignored_hash (slides : list value) (location_hash : string)
    (w : World) :
  choreographyData w = VArr slides ->
  out_of_range slides (parseInt (substring_from_1 location_hash)) ->
  let w1 := snd (on_hashchange location_hash w) in
  on_click w1 =
    (Normal tt,
     set_console
       (fun c => c ++ [console_error "No configuration found for the current hash."
                         ArgNone]) w1).
Proof.
  intros Hdata Hout w1. subst w1.
  rewrite (on_hashchange_ignored slides location_hash w Hdata Hout).
  cbn [snd]. apply (on_click_no_config VUndefined); [|reflexivity].
  unfold current_config. rewrite !bind_gets.
  change (choreographyData _) with (choreographyData w).
  change (hashIndex _) with (parseInt (substring_from_1 location_hash)) at 1.
  rewrite Hdata, (get_out_of_range slides _ Hout). reflexivity.
Qed.

Lemma on_click_after_ignored_hash_witness :
  choreographyData (sample_world "ready") = VArr [sample_slide] /\
  out_of_range [sample_slide] (parseInt (substring_from_1 "#next")) /\
  slider (snd (on_click (snd (on_hashchange "#next" (sample_world "ready"))))) =
    slider (sample_world "ready").
Proof.
  split; [reflexivity|]. split; [exact I|].
  rewrite (on_click_after_ignored_hash [sample_slide] "#next" (sample_world "ready")
             eq_refl I).
  reflexivity.
Defined.

(** X4: on a page without a time slider element, a click on the reset
    button while a slide is loaded for the current index ends in a
    TypeError (the listener assigns to a property of [null]) and changes
    nothing. *)
Theorem on_click_without_slider (config : value) (w : World) :
  current_config w = (Normal config, w) ->
  truthy config = true ->
  timeSliderGlobal w = sliderNull ->
  on_click w = (Throw (TypeError "Cannot set properties of null"), w).
Proof.
  intros Hconfig Htruthy Hslider.
  destruct (get_truthy_normal config "timeSliderStart"
              (truthy_not_nullish config Htruthy)) as [start Hstart].
  unfold on_click, bind at 1. rewrite Hconfig, Htruthy.
  rewrite bind_gets, Hslider, Hstart, bind_lift_normal. reflexivity.
Qed.

Lemma on_click_without_slider_witness :
  current_config sample_world_without_slider =
    (Normal sample_slide, sample_world_without_slider) /\
  truthy sample_slide = true /\
  timeSliderGlobal sample_world_without_slider = sliderNull /\
  fst (on_click sample_world_without_slider) =
    Throw (TypeError "Cannot set properties of null").
Proof.
  split; [reflexivity|]. split; [reflexivity|]. split; [reflexivity|].
  rewrite (on_click_without_slider sample_slide sample_world_without_slider
             eq_refl eq_refl eq_refl).
  reflexivity.
Defined.

(** ** The time slider, continued *)

Lemma bind_normal {A B : Type} (m : M A) (k : A -> M B) (w w' : World) (a : A) :
  m w = (Normal a, w') -> bind m k w = k a w'.
Proof. intros H. unfold bind. rewrite H. reflexivity. Qed.


(** X5: the timeSlider handler does nothing at all (no write, no call, no
    message) when the page has no slider element, or the slide's
    timeSlider value is falsy, or its start or its end is falsy. *)
Theorem toggleTimeSlider_not_configured (slide cfg : value) (ref : sliderRef)
    (embedded : bool) (w : World) :
  get slide "timeSlider" = Normal cfg ->
  ref = sliderNull \/
  truthy cfg = false \/
  (exists T0, get cfg "timeSliderStart" = Normal T0 /\ truthy T0 = false) \/
  (exists T1, get cfg "timeSliderEnd" = Normal T1 /\ truthy T1 = false) ->
  toggleTimeSlider (mkContext slide theView ref embedded) w = (Normal tt, w).
Proof.
  intros Hcfg Hnot.
  assert (Hno : has_timeSlider_config ref slide w = (Normal false, w)).
  { unfold has_timeSlider_config.
    destruct ref; [reflexivity|]. cbn [is_null].
    destruct Hnot as [Hnull | Hnot]; [discriminate Hnull|].
    rewrite Hcfg, bind_lift_normal.
    destruct (truthy cfg) eqn:Hc; [|reflexivity]. cbn [negb].
    destruct Hnot as [Hf | Hnot]; [discriminate Hf|].
    pose proof (truthy_not_nullish cfg Hc) as Hn.
    destruct (get_truthy_normal cfg "timeSliderStart" Hn) as [T0 H0].
    rewrite H0, bind_lift_normal.
    destruct (truthy T0) eqn:Ht0; [|reflexivity]. cbn [negb].
    destruct Hnot as [(T0' & H0' & Hf) | (T1 & H1 & Hf)].
    - rewrite H0 in H0'. injection H0' as <-. congruence.
    - rewrite H1, bind_lift_normal, Hf. reflexivity. }
  unfold toggleTimeSlider. cbv zeta. cbn [timeSlider slideData].
  erewrite bind_normal by exact Hno. reflexivity.
Qed.

Lemma toggleTimeSlider_not_configured_witness :
  get sample_slide_without_end "timeSlider" =
    Normal (VObj [("timeSliderStart", VStr "2024-05-01T06:00:00Z")]) /\
  get (VObj [("timeSliderStart", VStr "2024-05-01T06:00:00Z")]) "timeSliderEnd" =
    Normal VUndefined /\
  toggleTimeSlider (mkContext sample_slide_without_end theView sliderElement false)
    (sample_world "ready") = (Normal tt, sample_world "ready").
Proof.
  split; [reflexivity|]. split; [reflexivity|].
  apply (toggleTimeSlider_not_configured sample_slide_without_end
           (VObj [("timeSliderStart", VStr "2024-05-01T06:00:00Z")])
           sliderElement false (sample_world "ready") eq_refl).
  right. right. right. exists VUndefined. split; reflexivity.
Defined.




(** ** Initialisation *)




Lemma bind_modify {B : Type} (f : World -> World) (k : unit -> M B) (w : World) :
  bind (modify f) k w = k tt (f w).
Proof. reflexivity. Qed.

Lemma bind_throw {A B : Type} (m : M A) (k : A -> M B) (w w' : World) (e : error) :
  m w = (Throw e, w') -> bind m k w = (Throw e, w').
Proof. intros H. unfold bind. rewrite H. reflexivity. Qed.

Lemma loadChoreography_loaded (path : string) (answer : FetchOutcome) (w : World) :
  loadChoreography path answer w =
    (Normal tt,
     set_console (fun c => c ++ load_messages (DEBUG w) answer)
       (set_choreographyData (loaded_data answer w) w)).
Proof.
  destruct w as [ls ml sl calls con pend inv tsg cd hi ie rb hl cl dbg].
  unfold loadChoreography.
  destruct answer; [reflexivity | reflexivity |].
  destruct dbg; run_js; rewrite ?app_nil_r; reflexivity.
Qed.




Lemma configureTimeSlider_throws (slideData : value) (w : World) :
  timeSliderGlobal w = sliderElement ->
  get (choreographyData w) "0" = Normal slideData ->
  nullish slideData = true ->
  exists message, configureTimeSlider w = (Throw (TypeError message), w).
Proof.
  intros Hslider Hdata Hnull. unfold configureTimeSlider.
  rewrite bind_gets, Hdata, bind_lift_normal, bind_gets, Hslider.
  destruct slideData; try discriminate Hnull; eexists; reflexivity.
Qed.

(** X9: on a page with a time slider, a successfully loaded sequence
    whose first slide is missing, null or undefined (an empty array, for
    one) makes [initMapAnimator] end with a TypeError after the hashchange
    listener is installed: the reset button's listener is not installed
    and the slider is not touched. *)
Theorem initMapAnimator_first_slide_missing (path : string) (data slideData : value)
    (w : World) :
  timeSliderGlobal w = sliderElement ->
  get data "0" = Normal slideData ->
  nullish slideData = true ->
  let result := initMapAnimator path (json_resolves data) w in
  (exists message, fst result = Throw (TypeError message)) /\
  choreographyData (snd result) = data /\
  hashchange_listener (snd result) = true /\
  click_listener (snd result) = click_listener w /\
  slider (snd result) = slider w /\
  sdkCalls (snd result) = sdkCalls w.
Proof.
  intros Hslider Hdata Hnull result. subst result.
  unfold initMapAnimator.
  rewrite (bind_normal _ _ _ _ _ (loadChoreography_loaded path (json_resolves data) w)).
  unfold setupHashListener, setupResetButton.
  destruct w as [ls ml sl calls con pend inv tsg cd hi ie rb hl cl dbg].
  cbn [timeSliderGlobal] in Hslider. subst tsg.
  cbn [loaded_data].
  rewrite bind_modify. eval_setters.
  match goal with
  | |- context [bind configureTimeSlider _ ?w1] =>
      destruct (configureTimeSlider_throws slideData w1 eq_refl Hdata Hnull)
        as (message & Hrun);
      rewrite (bind_throw _ _ _ _ _ Hrun)
  end.
  split; [exists message; reflexivity | repeat split].
Qed.

Lemma initMapAnimator_first_slide_missing_witness :
  timeSliderGlobal (initial_world sliderElement false sample_layers "ready" true) =
    sliderElement /\
  get (VArr []) "0" = Normal VUndefined /\
  click_listener
    (snd (initMapAnimator "choreography.json" (json_resolves (VArr []))
            (initial_world sliderElement false sample_layers "ready" true))) = false.
Proof.
  split; [reflexivity|]. split; [reflexivity|].
  exact (proj1 (proj2 (proj2 (proj2
    (initMapAnimator_first_slide_missing "choreography.json" (VArr []) VUndefined
       (initial_world sliderElement false sample_layers "ready" true)
       eq_refl eq_refl eq_refl))))).
Defined.

(** ** What no event does

    The events of the page preserve a relation [R] that the writes of
    the program and the calls of [page_call] preserve, the calls of
    [stop] being those [toggleTimeSlider] makes when the embedded flag is
    set. *)
Section Page.
Context (flag : bool) (R : World -> World -> Prop).
Hypothesis R_refl : forall w, R w w.
Hypothesis R_trans : forall w1 w2 w3, R w1 w2 -> R w2 w3 -> R w1 w3.
Hypothesis R_embedded : forall w w', R w w' -> isEmbedded w' = isEmbedded w.
Hypothesis R_layers : forall f w, R w (set_layers f w).
Hypothesis R_mapLayers : forall f w, R w (set_mapLayers f w).
Hypothesis R_slider : forall f w, R w (set_slider f w).
Hypothesis R_console : forall f w, R w (set_console f w).
Hypothesis R_pending : forall f w, R w (set_pending f w).
Hypothesis R_invoked : forall f w, R w (set_invoked f w).
Hypothesis R_choreographyData : forall v w, R w (set_choreographyData v w).
Hypothesis R_hashIndex : forall n w, R w (set_hashIndex n w).
Hypothesis R_hashchange_listener : forall b w, R w (set_hashchange_listener b w).
Hypothesis R_click_listener : forall b w, R w (set_click_listener b w).
Hypothesis R_call : forall c, page_call c = true -> preserves R (sdk_call c).
Hypothesis R_stop : flag = true -> preserves R (sdk_call call_stop).

Ltac page_step :=
  first
    [ apply (preserves_ret R R_refl)
    | apply (preserves_throw R R_refl)
    | apply (preserves_lift R R_refl)
    | apply (preserves_gets R R_refl)
    | apply (preserves_layer_get R R_refl)
    | apply (preserves_find_layer R R_refl R_trans)
    | apply (preserves_has_timeSlider_config R R_refl R_trans)
    | apply (preserves_slider_write R R_refl R_slider)
    | apply (preserves_slider_read R R_refl)
    | apply R_call; reflexivity
    | apply R_stop; congruence
    | apply preserves_modify;
      first [ apply R_layers | apply R_mapLayers | apply R_slider | apply R_console
            | apply R_pending | apply R_invoked | apply R_choreographyData
            | apply R_hashIndex | apply R_hashchange_listener
            | apply R_click_listener ]
    | apply (preserves_bind R R_trans); [| intros ?]
    | apply (preserves_try_catch R R_trans); [| intros ?]
    | apply (preserves_forEach R R_refl R_trans); intros ?
    | progress rewrite ?andb_false_r
    | match goal with
      | |- preserves _ (if ?b then _ else _) => destruct b
      | |- preserves _ (match ?x with _ => _ end) => destruct x
      end ].

Lemma page_log (message : string) (arg : ConsoleArg) :
  preserves R (console_log_ message arg).
Proof using R_console. apply preserves_modify, R_console. Qed.

Lemma page_error (message : string) (arg : ConsoleArg) :
  preserves R (console_error_ message arg).
Proof using R_console. apply preserves_modify, R_console. Qed.

Lemma page_layer_update (ref : nat) (f : Layer -> Layer) :
  preserves R (layer_update ref f).
Proof using R_refl R_trans R_layers.
  exact (primitive_layer_update R R_refl R_trans R_layers ref f).
Qed.

Lemma page_toggleViewpoint (ctx : Context) : preserves R (toggleViewpoint ctx).
Proof using R_refl R_trans R_pending R_call.
  change (toggleViewpoint ctx)
    with (json <- lift (get (slideData ctx) "viewpoint") ;;
          goTo_catch (fromJSON ViewpointClass json) true 1000
            "Error setting viewpoint:").
  unfold goTo_catch. repeat page_step.
Qed.

Lemma page_toggleTimeSlider (ctx : Context) :
  embedded ctx = flag -> preserves R (toggleTimeSlider ctx).
Proof using R_refl R_trans R_slider R_console R_call R_stop.
  intros Hflag. unfold toggleTimeSlider, slider_method, console_log_. cbv zeta.
  destruct (embedded ctx); repeat page_step.
Qed.

Lemma page_toggleTrackRenderer (ctx : Context) :
  preserves R (toggleTrackRenderer ctx).
Proof using R_refl R_trans R_layers R_mapLayers R_console R_pending R_call.
  unfold toggleTrackRenderer, applyTrackRenderer, failed_to_set_track_renderer,
    await_when, map_remove, map_add, layer_clone, console_log_, console_error_.
  cbv zeta. repeat page_step.
Qed.

Lemma page_handler (key : string) (handler : Context -> M unit) (ctx : Context) :
  choreographyHandlers key = Some handler ->
  embedded ctx = flag ->
  preserves R (handler ctx).
Proof using R_refl R_trans R_layers R_mapLayers R_slider R_console R_pending R_call
  R_stop.
  unfold choreographyHandlers. intros H Hflag.
  destruct (key =? "viewpoint")%string;
    [injection H as <-; apply page_toggleViewpoint|].
  destruct (key =? "timeSlider")%string;
    [injection H as <-; apply page_toggleTimeSlider, Hflag|].
  destruct (key =? "layerVisibility")%string;
    [injection H as <-;
     apply (preserves_toggleLayerVisibility R R_refl R_trans page_log
              page_layer_update)|].
  destruct (key =? "trackRenderer")%string;
    [injection H as <-; apply page_toggleTrackRenderer|].
  destruct (key =? "camera")%string;
    [injection H as <-; apply (preserves_toggleCamera R R_refl R_trans)|].
  eapply (preserves_Object_prototype_member R R_refl); exact H.
Qed.

Lemma page_slideAnimation (slideData : value) (ref : sliderRef) :
  preserves R (slideAnimation slideData theView ref flag).
Proof using R_refl R_trans R_layers R_mapLayers R_slider R_console R_pending R_invoked
  R_call R_stop.
  unfold slideAnimation. cbv zeta.
  apply (preserves_bind R R_trans); [apply (preserves_lift R R_refl)|].
  intros entries. apply (preserves_forEach R R_refl R_trans). intros entry.
  unfold slideAnimation_entry. cbv zeta.
  destruct (choreographyHandlers (fst entry)) as [handler|] eqn:Hh; [|page_step].
  destruct (_ && _); [page_step|].
  apply (preserves_try_catch R R_trans); [| intros e; apply page_error].
  apply (preserves_bind R R_trans); [apply preserves_modify, R_invoked|].
  intros _. eapply page_handler; [exact Hh | reflexivity].
Qed.

Lemma while_embedded_refl (w : World) : while_embedded flag R w w.
Proof using R_refl. intros H. split; [apply R_refl | exact H]. Qed.

Lemma while_embedded_trans (w1 w2 w3 : World) :
  while_embedded flag R w1 w2 -> while_embedded flag R w2 w3 ->
  while_embedded flag R w1 w3.
Proof using R_trans.
  intros H12 H23 H1. destruct (H12 H1) as [R12 H2]. destruct (H23 H2) as [R23 H3].
  split; [eapply R_trans; eassumption | exact H3].
Qed.

Lemma while_embedded_lift {A : Type} (m : M A) :
  preserves R m -> preserves (while_embedded flag R) m.
Proof using R_embedded.
  intros Hm w Hw. split; [apply Hm|].
  rewrite (R_embedded _ _ (Hm w)). exact Hw.
Qed.

Lemma while_embedded_read {A : Type} (k : bool -> M A) :
  preserves (while_embedded flag R) (k flag) ->
  preserves (while_embedded flag R) (bind (gets isEmbedded) k).
Proof using Type.
  intros Hk w Hw. unfold bind, gets. rewrite Hw. apply Hk, Hw.
Qed.

Ltac event_step :=
  first
    [ apply while_embedded_read
    | apply while_embedded_lift, page_slideAnimation
    | apply while_embedded_lift,
        (preserves_applyTrackRenderer_resume R R_refl R_trans page_error
           page_layer_update)
    | apply (preserves_bind _ while_embedded_trans); [| intros ?]
    | apply (preserves_try_catch _ while_embedded_trans); [| intros ?]
    | match goal with
      | |- preserves _ (if ?b then _ else _) => destruct b
      | |- preserves _ (match ?x with _ => _ end) => destruct x
      end
    | apply while_embedded_lift; page_step ].

Lemma page_handle (ev : Event) : preserves (while_embedded flag R) (handle ev).
Proof using R_refl R_trans R_embedded R_layers R_mapLayers R_slider R_console
  R_pending R_invoked R_choreographyData R_hashIndex R_hashchange_listener
  R_click_listener R_call R_stop.
  destruct ev as [path answer | location_hash | | n outcome]; unfold handle.
  - unfold initMapAnimator, loadChoreography, setupHashListener, configureTimeSlider,
      setupResetButton, log, console_log_, console_error_, slider_method.
    cbv zeta. repeat event_step.
  - unfold on_hashchange, current_config, log, console_log_.
    repeat event_step.
  - unfold on_click, current_config, log, console_log_, console_error_, slider_method.
    repeat event_step.
  - unfold settle, console_error_.
    repeat event_step.
Qed.

Lemma page_run (events : list Event) (w : World) :
  isEmbedded w = flag -> R w (run events w) /\ isEmbedded (run events w) = flag.
Proof using R_refl R_trans R_embedded R_layers R_mapLayers R_slider R_console
  R_pending R_invoked R_choreographyData R_hashIndex R_hashchange_listener
  R_click_listener R_call R_stop.
  revert w. induction events as [|ev rest IH]; intros w Hw.
  - split; [apply R_refl | exact Hw].
  - cbn [run]. destruct (page_handle ev w Hw) as [Hstep Hflag].
    destruct (IH _ Hflag) as [Hrest Hend].
    split; [eapply R_trans; eassumption | exact Hend].
Qed.
End Page.

Lemma no_stop_refl (w : World) : no_stop w w.
Proof. split; [reflexivity|]. exists []. rewrite app_nil_r. split; reflexivity. Qed.

Lemma no_stop_trans (w1 w2 w3 : World) : no_stop w1 w2 -> no_stop w2 w3 -> no_stop w1 w3.
Proof.
  intros [E1 (c1 & H1 & F1)] [E2 (c2 & H2 & F2)]. split; [congruence|].
  exists (c1 ++ c2). rewrite H2, H1, app_assoc. split; [reflexivity|].
  rewrite forallb_app, F1, F2. reflexivity.
Qed.

(** X10: whatever the events (view ready, hash changes, clicks, promises
    settling), nothing changes the reset button's [disabled] property or
    the embedded flag: [updateResetButtonState] is called from nowhere
    and [isEmbedded] is only read. *)
Theorem run_keeps_wiring (events : list Event) (w : World) :
  resetButton_disabled (run events w) = resetButton_disabled w /\
  isEmbedded (run events w) = isEmbedded w.
Proof.
  assert (H : wiring_same w (run events w) /\
              isEmbedded (run events w) = isEmbedded w).
  { apply (page_run (isEmbedded w) wiring_same);
      try solve [ reflexivity
                | intros; split; reflexivity
                | intros ? ? ? [? ?] [? ?]; split; congruence
                | intros ? ? [_ ?]; assumption ]. }
  destruct H as [[Hbutton _] Hflag]. split; assumption.
Qed.

(** X11: on a page whose embedded flag is false, as main.js initialises
    it, no sequence of events ever calls [stop] on the time slider (the
    flag stays false, so the branch of [toggleTimeSlider] that stops the
    slider is never taken), and every [goTo] made goes to a viewpoint,
    animated over 1000 ms: the SDK call log only grows, by calls of
    [page_call]. *)
Theorem run_never_stops (events : list Event) (w : World) :
  isEmbedded w = false ->
  isEmbedded (run events w) = false /\
  exists calls,
    sdkCalls (run events w) = sdkCalls w ++ calls /\
    (forall c, In c calls -> page_call c = true) /\
    ~ In call_stop calls.
Proof.
  intros Hflag.
  assert (H : no_stop w (run events w) /\ isEmbedded (run events w) = false).
  { apply (page_run false no_stop);
      try solve [ exact no_stop_refl | exact no_stop_trans | exact Hflag
                | intros; split; [reflexivity|]; exists [];
                  rewrite app_nil_r; split; reflexivity
                | intros ? ? [? _]; assumption
                | discriminate ].
    intros c Hc w0. split; [reflexivity|]. exists [c].
    split; [reflexivity|]. cbn [forallb]. rewrite Hc. reflexivity. }
  destruct H as [[_ (calls & Hcalls & Hall)] Hend].
  rewrite forallb_forall in Hall.
  split; [exact Hend|]. exists calls. split; [exact Hcalls|].
  split; [exact Hall|].
  intros Hin. specialize (Hall _ Hin). discriminate Hall.
Qed.

Lemma run_never_stops_witness :
  isEmbedded (initial_world sliderElement false sample_layers "ready" true) = false /\
  isEmbedded
    (run [ViewReady "choreography.json" (json_resolves (VArr [sample_slide]));
          HashChange "#0"; Click]
       (initial_world sliderElement false sample_layers "ready" true)) = false.
Proof.
  split; [reflexivity|].
  exact (proj1 (run_never_stops
                  [ViewReady "choreography.json" (json_resolves (VArr [sample_slide]));
                   HashChange "#0"; Click]
                  (initial_world sliderElement false sample_layers "ready" true)
                  eq_refl)).
Defined.

(** ** The track renderer, continued *)

Lemma find_layer_none (name : value) (refs : list nat) (w : World) :
  Forall (fun ref => exists l, layers w !! ref = Some l /\ VStr (title l) <> name) refs ->
  find_layer name refs w = (Normal None, w).
Proof.
  intros Hrefs. induction Hrefs as [|ref rest (l & Hl & Hne) _ IH]; [reflexivity|].
  cbn [find_layer]. unfold bind at 1, layer_get at 1. rewrite Hl.
  destruct name; try exact IH.
  destruct (String.eqb_spec (title l) s) as [Heq|_]; [|exact IH].
  rewrite Heq in Hne. contradiction.
Qed.

(** X12: when no layer of the map has the configured title (or the
    configured name is not a string), the trackRenderer handler changes
    nothing: no layer is removed, cloned or added, and nothing is
    logged. *)
Theorem toggleTrackRenderer_no_such_layer (slide cfg trackRenderer name : value)
    (ref : sliderRef) (embedded : bool) (w : World) :
  get slide "timeSlider" = Normal cfg ->
  nullish cfg = false ->
  get slide "trackRenderer" = Normal trackRenderer ->
  get trackRenderer "trackLayerName" = Normal name ->
  Forall (fun r => exists l, layers w !! r = Some l /\ VStr (title l) <> name)
    (mapLayers w) ->
  toggleTrackRenderer (mkContext slide theView ref embedded) w = (Normal tt, w).
Proof.
  intros Hcfg Hnc Htr Hname Hrefs.
  assert (Hnt : nullish trackRenderer = false)
    by (destruct trackRenderer; try reflexivity; discriminate Hname).
  destruct (get_truthy_normal trackRenderer "trackFieldName" Hnt) as [field Hfield].
  destruct (get_truthy_normal cfg "timeSliderUnit" Hnc) as [U HU].
  destruct (get_truthy_normal cfg "timeSliderStep" Hnc) as [S HS].
  unfold toggleTrackRenderer. cbn -[get applyTrackRenderer bind lift].
  rewrite Hcfg, bind_lift_normal, Htr, bind_lift_normal.
  unfold applyTrackRenderer, try_catch.
  rewrite Hfield, bind_lift_normal, HU, bind_lift_normal, HS, bind_lift_normal.
  rewrite Hname, bind_lift_normal, bind_gets.
  unfold bind. rewrite (find_layer_none name (mapLayers w) w Hrefs). reflexivity.
Qed.

Lemma toggleTrackRenderer_no_such_layer_witness :
  get sample_trams_slide "timeSlider" = Normal sample_timeSlider /\
  Forall (fun r => exists l, layers (sample_world "ready") !! r = Some l /\
                             VStr (title l) <> VStr "Trams")
    (mapLayers (sample_world "ready")) /\
  toggleTrackRenderer (mkContext sample_trams_slide theView sliderElement false)
    (sample_world "ready") = (Normal tt, sample_world "ready").
Proof.
  assert (Hrefs : Forall (fun r => exists l, layers (sample_world "ready") !! r = Some l /\
                                            VStr (title l) <> VStr "Trams")
                    (mapLayers (sample_world "ready")))
    by (repeat constructor; eexists; (split; [reflexivity | discriminate])).
  split; [reflexivity|]. split; [exact Hrefs|].
  exact (toggleTrackRenderer_no_such_layer sample_trams_slide sample_timeSlider
           (VObj [("trackLayerName", VStr "Trams"); ("trackFieldName", VStr "tram_id")])
           (VStr "Trams") sliderElement false (sample_world "ready")
           eq_refl eq_refl eq_refl eq_refl Hrefs).
Defined.

(** X13: when the promise of the clone's [when] rejects, or is fulfilled
    while the clone has no time info, the rest of [applyTrackRenderer]
    only logs "Failed to set track Renderer:" with the error: the clone
    stays in the map as it was cloned, not made visible, without the track
    info. *)
Theorem settle_when_fails (n clone : nat)
    (trackRenderer trackLayerField U S : value) (outcome : Settlement)
    (c : Layer) (w : World) :
  pending w !! n = Some (when_promise clone trackRenderer trackLayerField U S) ->
  layers w !! clone = Some c ->
  (outcome = Fulfilled -> timeInfo c = None) ->
  settle n outcome w =
    (Normal tt,
     set_console
       (fun entries =>
          entries ++ [console_error "Failed to set track Renderer:"
                        (ArgError (resume_error outcome))])
       (set_pending (delete n) w)).
Proof.
  intros Hp Hc Hti.
  unfold settle, bind at 1, gets at 1. rewrite Hp.
  unfold applyTrackRenderer_resume, failed_to_set_track_renderer, try_catch.
  destruct w as [ls ml sl calls con pend inv tsg cd hi ie rb hl cl dbg].
  cbn [layers] in Hc.
  destruct outcome as [|reason]; [|reflexivity].
  specialize (Hti eq_refl).
  unfold bind, modify, ret, layer_get. eval_setters. rewrite Hc, Hti. reflexivity.
Qed.

Lemma settle_when_fails_witness :
  pending sample_world_stops_loading !! 0 =
    Some (when_promise 3
            (VObj [("trackLayerName", VStr "Stops"); ("trackFieldName", VStr "stop_id")])
            (VStr "stop_id") (VStr "minutes") (VNum (Num 5))) /\
  layers sample_world_stops_loading !! 3 = Some (mkLayer "Stops" false None VNull) /\
  layers (snd (settle 0 Fulfilled sample_world_stops_loading)) =
    layers sample_world_stops_loading.
Proof.
  split; [reflexivity|]. split; [reflexivity|].
  rewrite (settle_when_fails 0 3
             (VObj [("trackLayerName", VStr "Stops"); ("trackFieldName", VStr "stop_id")])
             (VStr "stop_id") (VStr "minutes") (VNum (Num 5)) Fulfilled
             (mkLayer "Stops" false None VNull) sample_world_stops_loading
             eq_refl eq_refl (fun _ => eq_refl)).
  reflexivity.
Defined.




(** ** The dispatcher, continued *)

Lemma choreographyHandlers_digit (key : string) :
  starts_with_digit key = true -> choreographyHandlers key = None.
Proof.
  destruct key as [|c rest]; [discriminate|].
  destruct c as [[] [] [] [] [] [] [] []]; intros H; try discriminate H; reflexivity.
Qed.

Lemma index_key_starts_with_digit (i : nat) : starts_with_digit (index_key i) = true.
Proof.
  unfold index_key, number_to_string.
  destruct (Z.of_nat i) as [|p|p] eqn:Hi; [reflexivity| |lia].
  pose proof (DecimalPos.Unsigned.to_uint_nonnil p) as Hnil.
  simpl. destruct (Pos.to_uint p); [contradiction | reflexivity..].
Qed.

Lemma forEach_unhandled (ctx : Context) (entries : list (string * value)) (w : World) :
  Forall (fun entry => choreographyHandlers (fst entry) = None) entries ->
  forEach entries (slideAnimation_entry ctx) w = (Normal tt, w).
Proof.
  intros H. induction H as [|entry rest Hentry _ IH]; [reflexivity|].
  cbn [forEach]. unfold bind at 1, slideAnimation_entry at 1. cbv zeta.
  rewrite Hentry. exact IH.
Qed.

Lemma indexed_entries_unhandled {A : Type} (f : A -> value) (items : list A) :
  Forall (fun entry => choreographyHandlers (fst entry) = None)
    (imap (fun i x => (index_key i, f x)) items).
Proof.
  apply Forall_lookup. intros i entry Hentry.
  rewrite list_lookup_imap in Hentry.
  destruct (items !! i) as [x|]; [|discriminate Hentry].
  injection Hentry as <-. apply choreographyHandlers_digit, index_key_starts_with_digit.
Qed.

(** X15: a slide that is not an object (an array, a string, a number or a
    boolean) is dispatched to no handler: its keys are array indices or
    there are none, so [slideAnimation] changes nothing. *)
Theorem slideAnimation_not_an_object (slide : value) (ref : sliderRef)
    (embedded : bool) (w : World) :
  nullish slide = false ->
  (forall fields, slide <> VObj fields) ->
  slideAnimation slide theView ref embedded w = (Normal tt, w).
Proof.
  intros Hslide Hobj. unfold slideAnimation. cbv zeta.
  destruct slide as [| | b | n | s | items | fields]; try discriminate Hslide;
    cbn [Object_entries]; rewrite bind_lift_normal.
  - reflexivity.
  - reflexivity.
  - apply forEach_unhandled.
    exact (indexed_entries_unhandled (fun c => VStr (String c EmptyString)) _).
  - apply forEach_unhandled. exact (indexed_entries_unhandled (fun x => x) items).
  - destruct (Hobj fields eq_refl).
Qed.

Lemma slideAnimation_not_an_object_witness :
  nullish (VArr [sample_slide]) = false /\
  slideAnimation (VArr [sample_slide]) theView sliderElement false (sample_world "ready") =
    (Normal tt, sample_world "ready").
Proof.
  split; [reflexivity|].
  apply (slideAnimation_not_an_object (VArr [sample_slide]) sliderElement false
           (sample_world "ready") eq_refl).
  intros fields H. discriminate H.
Defined.

(** ** Layer visibility, continued *)

Lemma setLayerVisibility_no_names (layerNames : value) (visibility : bool) (w : World) :
  no_names layerNames -> setLayerVisibility layerNames visibility w = (Normal tt, w).
Proof.
  intros Hno.
  assert (Hlen : truthy layerNames = false \/
                 exists len, get layerNames "length" = Normal len /\
                             greater_than_zero len = false).
  { destruct Hno as [Hfalsy | [Hundefined | [Hnull | (z & Hz & Hle)]]].
    - left. exact Hfalsy.
    - right. exists VUndefined. split; [exact Hundefined | reflexivity].
    - right. exists VNull. split; [exact Hnull | reflexivity].
    - right. exists (VNum (Num z)). split; [exact Hz|].
      unfold greater_than_zero. cbn [ToNumber]. apply Z.ltb_ge, Hle. }
  destruct Hlen as [Hfalsy | (len & Hlen & Hzero)]; unfold setLayerVisibility.
  - rewrite Hfalsy. reflexivity.
  - destruct (truthy layerNames); [|reflexivity]. cbn [negb].
    rewrite Hlen, bind_lift_normal, Hzero. reflexivity.
Qed.

(** X16: when neither [layersOn] nor [layersOff] gives a name (each is
    absent or otherwise falsy, or has no [length], or has an integer
    [length] that is not greater than 0, as an empty array has), the
    layerVisibility handler changes no layer and logs nothing. *)
Theorem toggleLayerVisibility_no_names (slide layerVisibility layersOn layersOff : value)
    (ref : sliderRef) (embedded : bool) (w : World) :
  get slide "layerVisibility" = Normal layerVisibility ->
  get layerVisibility "layersOn" = Normal layersOn ->
  get layerVisibility "layersOff" = Normal layersOff ->
  no_names layersOn ->
  no_names layersOff ->
  toggleLayerVisibility (mkContext slide theView ref embedded) w = (Normal tt, w).
Proof.
  intros Hlv Hon Hoff Hnon Hnoff.
  unfold toggleLayerVisibility. cbn -[get setLayerVisibility bind lift].
  rewrite Hlv, bind_lift_normal, Hon, !bind_lift_normal, Hoff, bind_lift_normal.
  rewrite (bind_normal _ _ _ _ _ (setLayerVisibility_no_names layersOn true w Hnon)).
  apply setLayerVisibility_no_names, Hnoff.
Qed.

Lemma toggleLayerVisibility_no_names_witness :
  get (VObj [("layerVisibility", VObj [("layersOn", VArr [])])]) "layerVisibility" =
    Normal (VObj [("layersOn", VArr [])]) /\
  no_names (VArr []) /\
  no_names VUndefined /\
  toggleLayerVisibility
    (mkContext (VObj [("layerVisibility", VObj [("layersOn", VArr [])])])
       theView sliderElement false)
    (sample_world "ready") = (Normal tt, sample_world "ready").
Proof.
  assert (Hon : no_names (VArr []))
    by (right; right; right; exists 0%Z; split; [reflexivity | discriminate]).
  assert (Hoff : no_names VUndefined) by (left; reflexivity).
  split; [reflexivity|]. split; [exact Hon|]. split; [exact Hoff|].
  exact (toggleLayerVisibility_no_names
           (VObj [("layerVisibility", VObj [("layersOn", VArr [])])])
           (VObj [("layersOn", VArr [])]) (VArr []) VUndefined sliderElement false
           (sample_world "ready") eq_refl eq_refl eq_refl Hon Hoff).
Defined.

Lemma toggleLayerVisibility_arrays
    (slide layerVisibility : value) (layersOn layersOff : list value)
    (ref : sliderRef) (embedded : bool) (w : World) :
  get slide "layerVisibility" = Normal layerVisibility ->
  get layerVisibility "layersOn" = Normal (VArr layersOn) ->
  get layerVisibility "layersOff" = Normal (VArr layersOff) ->
  collection_allocated w ->
  toggleLayerVisibility (mkContext slide theView ref embedded) w =
    (Normal tt,
     set_console
       (fun c => c ++ visibility_log layersOn true (layers w) (mapLayers w)
                   ++ visibility_log layersOff false (layers w) (mapLayers w))
       (set_layers
          (fun ls => show_named layersOff false (mapLayers w)
                       (show_named layersOn true (mapLayers w) ls)) w)).
Proof.
  intros Hlv Hon Hoff Hrefs.
  unfold toggleLayerVisibility, bind, lift. cbn -[get setLayerVisibility].
  rewrite Hlv, Hon, Hoff.
  rewrite (setLayerVisibility_array layersOn true w Hrefs).
  rewrite setLayerVisibility_array
    by (unfold collection_allocated; simpl; rewrite show_named_length; exact Hrefs).
  destruct w as [ls ml sl calls con pend inv tsg cd hi ie rb hl cl dbg].
  unfold set_console, set_layers; simpl.
  rewrite (visibility_log_same_titles layersOff false ls _ ml)
    by apply show_named_titles.
  rewrite <- app_assoc. reflexivity.
Qed.

Lemma show_named_twice_lookup (layersOn layersOff : list value) (refs : list nat)
    (ls : list Layer) (i : nat) (l : Layer) :
  ls !! i = Some l ->
  show_named layersOff false refs (show_named layersOn true refs ls) !! i =
    Some (shown layersOn layersOff refs i l).
Proof.
  intros Hl.
  pose proof (show_named_lookup layersOn true refs _ _ _ Hl) as H1.
  rewrite (show_named_lookup layersOff false refs _ _ _ H1).
  f_equal. unfold shown.
  destruct (bool_decide (i ∈ refs)); simpl; [|reflexivity].
  destruct (named layersOn (title l)); simpl;
    destruct (named layersOff (title l)); reflexivity.
Qed.

Lemma shown_idempotent (layersOn layersOff : list value) (refs : list nat) (i : nat)
    (l : Layer) :
  shown layersOn layersOff refs i (shown layersOn layersOff refs i l) =
    shown layersOn layersOff refs i l.
Proof.
  unfold shown.
  destruct (bool_decide (i ∈ refs)); simpl; [|reflexivity].
  destruct (named layersOff (title l)) eqn:Hoff; simpl; [rewrite Hoff; reflexivity|].
  destruct (named layersOn (title l)) eqn:Hon; simpl; rewrite ?Hoff, ?Hon; reflexivity.
Qed.

(** X17: applying the layer visibility of a slide a second time changes
    no layer: revisiting a slide leaves every layer as the first visit
    left it. *)
Theorem toggleLayerVisibility_idempotent
    (slide layerVisibility : value) (layersOn layersOff : list value)
    (ref : sliderRef) (embedded : bool) (w : World) :
  get slide "layerVisibility" = Normal layerVisibility ->
  get layerVisibility "layersOn" = Normal (VArr layersOn) ->
  get layerVisibility "layersOff" = Normal (VArr layersOff) ->
  collection_allocated w ->
  let ctx := mkContext slide theView ref embedded in
  let w1 := snd (toggleLayerVisibility ctx w) in
  layers (snd (toggleLayerVisibility ctx w1)) = layers w1 /\
  mapLayers w1 = mapLayers w.
Proof.
  intros Hlv Hon Hoff Hrefs ctx w1. subst ctx w1.
  rewrite (toggleLayerVisibility_arrays _ _ _ _ ref embedded w Hlv Hon Hoff Hrefs).
  destruct w as [ls ml sl calls con pend inv tsg cd hi ie rb hl cl dbg].
  unfold collection_allocated in Hrefs. cbn [layers mapLayers] in Hrefs.
  cbn [snd]. eval_setters.
  rewrite (toggleLayerVisibility_arrays slide layerVisibility layersOn layersOff
             ref embedded _ Hlv Hon Hoff)
    by (unfold collection_allocated; cbn [layers mapLayers];
        rewrite !show_named_length; exact Hrefs).
  cbn [snd]. eval_setters. split; [|reflexivity].
  apply list_eq. intros i.
  destruct (ls !! i) as [l|] eqn:Hl.
  - rewrite (show_named_twice_lookup layersOn layersOff ml ls i l Hl).
    rewrite (show_named_twice_lookup layersOn layersOff ml _ i _
               (show_named_twice_lookup layersOn layersOff ml ls i l Hl)).
    rewrite shown_idempotent. reflexivity.
  - rewrite !lookup_ge_None_2; [reflexivity | |];
      rewrite !show_named_length; apply lookup_ge_None_1; exact Hl.
Qed.

Lemma toggleLayerVisibility_idempotent_witness :
  get sample_slide "layerVisibility" =
    Normal (VObj [("layersOn", VArr [VStr "Stops"]);
                  ("layersOff", VArr [VStr "Routes"])]) /\
  collection_allocated (sample_world "ready") /\
  layers (snd (toggleLayerVisibility (mkContext sample_slide theView sliderElement false)
                 (snd (toggleLayerVisibility
                         (mkContext sample_slide theView sliderElement false)
                         (sample_world "ready"))))) =
  layers (snd (toggleLayerVisibility (mkContext sample_slide theView sliderElement false)
                 (sample_world "ready"))).
Proof.
  split; [reflexivity|]. split; [exact sample_world_allocated|].
  exact (proj1 (toggleLayerVisibility_idempotent sample_slide _ [VStr "Stops"]
                  [VStr "Routes"] sliderElement false (sample_world "ready")
                  eq_refl eq_refl eq_refl sample_world_allocated)).
Defined.
